(** * NSF awards harvester: resumable pagination with a checkpoint

    A shallow embedding of [original_data/get_data.py] (full backfill) and
    [original_data/get_more_data.py] (incremental update), and the properties
    of their progress tracker, page fetcher, row merger and driving loop.

    The two scripts share all their code but a handful of lines; the
    embedding takes the script as a parameter ([script]) and branches where
    the sources differ. Files, the remote source and the clock are explicit:
    a [World] holds the output file, the checkpoint file and the log of what
    the run did; the remote source and pandas' reading of the output file are
    parameters. Console output and the pause between pages are left out. *)

From Stdlib Require Import ZArith List String Bool Lia DecimalString Sorted.
Import ListNotations.
Local Open Scope string_scope.
Local Open Scope list_scope.
Local Open Scope Z_scope.
Set Warnings "-register-all".

(** ** Python values as they come out of [json.load] and [r.json()] *)

(** Numbers are the integers; an object keeps its keys in insertion order,
    as a Python [dict] does, which is the order [pd.DataFrame] gives to its
    columns. *)
Inductive json : Type :=
| JNull
| JBool (b : bool)
| JInt (n : Z)
| JStr (s : string)
| JArr (l : list json)
| JObj (o : list (string * json)).

Definition dict := list (string * json).

(** The exceptions the modelled code can meet. [Unsupported] is not a Python
    exception: it marks a value on which pandas is not modelled. *)
Inductive exn : Type :=
| JSONDecodeError
| KeyError (k : string)
| TypeError
| AttributeError
| RequestException
| ValueError
| Unsupported.

Inductive result (A : Type) : Type :=
| Ok (a : A)
| Raise (e : exn).
Arguments Ok {A} a.
Arguments Raise {A} e.

Definition bind {A B} (r : result A) (k : A -> result B) : result B :=
  match r with
  | Ok a => k a
  | Raise e => Raise e
  end.

Notation "x <- c ;; k" := (bind c (fun x => k))
  (at level 61, c at next level, right associativity).

(** [try: body except Exception: handler] *)
Definition try_except {A} (body : result A) (handler : exn -> result A) : result A :=
  match body with
  | Ok a => Ok a
  | Raise e => handler e
  end.

(** [d.get(k)] on a dict, [None] of Rocq standing for an absent key. *)
Fixpoint lookup (k : string) (d : dict) : option json :=
  match d with
  | [] => None
  | (k', v) :: d' => if String.eqb k k' then Some v else lookup k d'
  end.

(** [d[k] = v]: the binding is replaced in place, a new key goes last. *)
Fixpoint store (k : string) (v : json) (d : dict) : dict :=
  match d with
  | [] => [(k, v)]
  | (k', v') :: d' =>
      if String.eqb k k' then (k', v) :: d' else (k', v') :: store k v d'
  end.

(** [x.get(k, default)]: only a dict has [.get]. *)
Definition py_get (x : json) (k : string) (default : json) : result json :=
  match x with
  | JObj d => Ok match lookup k d with Some v => v | None => default end
  | _ => Raise AttributeError
  end.

(** [x[k]] with a string key. *)
Definition py_getitem (x : json) (k : string) : result json :=
  match x with
  | JObj d => match lookup k d with Some v => Ok v | None => Raise (KeyError k) end
  | _ => Raise TypeError
  end.

(** [x[k] = v] with a string key. *)
Definition py_setitem (x : json) (k : string) (v : json) : result json :=
  match x with
  | JObj d => Ok (JObj (store k v d))
  | _ => Raise TypeError
  end.

(** The integer a Python number stands for; [True] and [False] are the
    integers 1 and 0, every other value refuses to be ordered with an int. *)
Definition as_int (x : json) : result Z :=
  match x with
  | JInt n => Ok n
  | JBool b => Ok (if b then 1 else 0)
  | _ => Raise TypeError
  end.

(** [x > n] and [x < n] for an integer constant [n]. *)
Definition py_gt (x : json) (n : Z) : result bool :=
  v <- as_int x ;; Ok (n <? v).

Definition py_lt (x : json) (n : Z) : result bool :=
  v <- as_int x ;; Ok (v <? n).

(** Python's truth value, as tested by [if not awards]. *)
Definition truthy (x : json) : bool :=
  match x with
  | JNull => false
  | JBool b => b
  | JInt n => negb (n =? 0)
  | JStr s => negb (String.eqb s "")
  | JArr l => match l with [] => false | _ => true end
  | JObj o => match o with [] => false | _ => true end
  end.

(** ** Configuration constants *)

Inductive script : Type :=
| get_data        (* full backfill *)
| get_more_data.  (* incremental update *)

Definition RPP : Z := 25.
Definition MAX_RETRIES : nat := 3.
Definition YEAR_START : Z := 2019.

Definition fields : list string :=
  [ "agency"; "awardeeCountryCode"; "awardeeStateCode"; "awardeeName";
    "startDate"; "expDate"; "date"; "title"; "abstractText" ].

Definition PRINT_FIELDS : string := String.concat "," fields.

Definition RESET (s : script) : bool :=
  match s with
  | get_data => true
  | get_more_data => false
  end.

(** [YEAR_END] is 2024 in the backfill and [datetime.datetime.now().year]
    in the update, which the embedding receives as [CURRENT_YEAR]. *)
Definition YEAR_END (s : script) (CURRENT_YEAR : Z) : Z :=
  match s with
  | get_data => 2024
  | get_more_data => CURRENT_YEAR
  end.

(** ** Data model *)

(** ProgressState: the checkpoint dict, with its four keys (a key a loaded
    file has besides them is not carried along). *)
Record State : Type := mkState {
  year : Z;
  offset : Z;
  written_header : bool;
  total_saved : Z
}.

Definition set_year (y : Z) (st : State) : State :=
  mkState y (offset st) (written_header st) (total_saved st).

Definition set_offset (o : Z) (st : State) : State :=
  mkState (year st) o (written_header st) (total_saved st).

(** What [json.dump(state, f)] writes. *)
Definition json_of_state (st : State) : json :=
  JObj [ ("year", JInt (year st)); ("offset", JInt (offset st));
         ("written_header", JBool (written_header st));
         ("total_saved", JInt (total_saved st)) ].

(** The dict that [load_checkpoint] hands to [main], read as a ProgressState.
    [main] prints [state['year']], [state['offset']] and
    [state['total_saved']] before its loop, so a dict lacking one of them stops
    the run there; the embedding also reads [written_header] at this point and
    wants the three counters to be integers. *)
Definition state_of_json (j : json) : result State :=
  y <- (v <- py_getitem j "year" ;; as_int v) ;;
  o <- (v <- py_getitem j "offset" ;; as_int v) ;;
  t <- (v <- py_getitem j "total_saved" ;; as_int v) ;;
  h <- py_getitem j "written_header" ;;
  Ok (mkState y o (truthy h) t).

(** A cell of a data frame; [None] is pandas' NaN for a missing value. *)
Definition cell := option json.

Record DataFrame : Type := mkDataFrame {
  columns : list string;
  rows : list (list cell)
}.

(** A line of the output file. *)
Inductive line : Type :=
| Header (cols : list string)
| Row (cells : list cell).

(** The content of [CHECKPOINT_FILE]. *)
Inductive checkpoint : Type :=
| NoFile
| Garbled                (* text that [json.load] cannot parse *)
| Holds (j : json).

(** What the run does to the outside, in order. *)
Inductive event : Type :=
| Fetch (y ofs : Z)           (* a call of [fetch_page] *)
| Write (ls : list line)      (* a call of [df.to_csv] *)
| Save (st : State).          (* a call of [save_checkpoint] *)

Record World : Type := mkWorld {
  output_file : option (list line);   (* [None]: [OUTPUT_FILE] does not exist *)
  checkpoint_file : checkpoint;
  events : list event
}.

(** The query of one request. *)
Record params : Type := mkParams {
  rpp : Z;
  p_offset : Z;
  startDateStart : string;
  startDateEnd : string;
  agency : string;
  awardeeCountryCode : string;
  printFields : string
}.

(** What one [requests.get] ends in: an exception (of the transport, of
    [raise_for_status] or of [r.json()]), or the decoded body. *)
Inductive response : Type :=
| Failed
| Body (data : json).

(** ** Progress tracker *)

Definition exists_output (w : World) : bool :=
  match output_file w with Some _ => true | None => false end.

Definition reset_files (s : script) (w : World) : World :=
  if RESET s then mkWorld None NoFile (events w) else w.

Definition default_state (s : script) (CURRENT_YEAR : Z) (w : World) : json :=
  JObj [ ("year", JInt (YEAR_END s CURRENT_YEAR)); ("offset", JInt 1);
         ("written_header",
          JBool match s with
                | get_data => false
                | get_more_data => exists_output w
                end);
         ("total_saved", JInt 0) ].

Definition load_checkpoint (s : script) (CURRENT_YEAR : Z) (w : World) : result json :=
  match checkpoint_file w with
  | NoFile => Ok (default_state s CURRENT_YEAR w)
  | Garbled => Raise JSONDecodeError
  | Holds state =>
      let YEAR_END := YEAR_END s CURRENT_YEAR in
      g <- py_get state "year" (JInt YEAR_END) ;;
      above <- py_gt g YEAR_END ;;
      outside <- (if above then Ok true
                  else v <- py_getitem state "year" ;; py_lt v YEAR_START) ;;
      if (outside : bool) then
        state <- py_setitem state "year" (JInt YEAR_END) ;;
        state <- py_setitem state "offset" (JInt 1) ;;
        Ok state
      else Ok state
  end.

(** The year a loaded checkpoint dict carries lies in the configured range. *)
Definition year_in_range (s : script) (CURRENT_YEAR : Z) (state : json) : Prop :=
  exists d v n,
    state = JObj d /\ lookup "year" d = Some v /\ as_int v = Ok n /\
    YEAR_START <= n <= YEAR_END s CURRENT_YEAR.

(** [open(CHECKPOINT_FILE, "w")]: the file is there and empty, which
    [json.load] cannot parse. *)
Definition open_w (w : World) : World :=
  mkWorld (output_file w) Garbled (events w).

(** [json.dump(state, f)] into the opened file, to its end. *)
Definition json_dump (st : State) (w : World) : World :=
  mkWorld (output_file w) (Holds (json_of_state st)) (events w ++ [Save st]).

Definition save_checkpoint (st : State) (w : World) : World :=
  json_dump st (open_w w).

(** ** Row merger *)

Definition len (df : DataFrame) : Z := Z.of_nat (List.length (rows df)).

(** [df.empty]: one of the two axes has length 0. *)
Definition empty (df : DataFrame) : bool :=
  match rows df, columns df with
  | [], _ => true
  | _, [] => true
  | _, _ => false
  end.

Definition mem (s : string) (l : list string) : bool :=
  existsb (String.eqb s) l.

(** Columns are the keys of the records, in the order of their first
    appearance. *)
Fixpoint add_keys (seen ks : list string) : list string :=
  match ks with
  | [] => seen
  | k :: ks' => add_keys (if mem k seen then seen else seen ++ [k]) ks'
  end.

Definition all_columns (records : list dict) : list string :=
  fold_left (fun seen r => add_keys seen (map fst r)) records [].

Definition is_scalar (x : json) : bool :=
  match x with
  | JArr _ | JObj _ => false
  | _ => true
  end.

Fixpoint records_of (l : list json) : result (list dict) :=
  match l with
  | [] => Ok []
  | JObj d :: l' =>
      if forallb (fun kv => is_scalar (snd kv)) d
      then (ds <- records_of l' ;; Ok (d :: ds))
      else Raise Unsupported
  | _ :: _ => Raise Unsupported
  end.

Definition frame_of (records : list dict) : DataFrame :=
  let cols := all_columns records in
  mkDataFrame cols (map (fun r => map (fun c => lookup c r) cols) records).

(** [pd.DataFrame(awards)], for the shape the API documents: an array of
    objects whose fields are scalars. Any other value is [Unsupported]. *)
Definition data_frame (awards : json) : result DataFrame :=
  match awards with
  | JArr l => records <- records_of l ;; Ok (frame_of records)
  | _ => Raise Unsupported
  end.

(** The cell of a row under a column name. *)
Fixpoint cell_of (name : string) (cols : list string) (row : list cell) : cell :=
  match cols, row with
  | c :: cols', v :: row' => if String.eqb name c then v else cell_of name cols' row'
  | _, _ => None
  end.

(** One element of [df["id"].isin(existing_ids)]: [existing_ids] holds
    strings, so only a string cell can be a member. *)
Definition isin (c : cell) (existing_ids : list string) : bool :=
  match c with
  | Some (JStr i) => mem i existing_ids
  | _ => false
  end.

(** [df[~df["id"].isin(existing_ids)]] *)
Definition drop_known (df : DataFrame) (existing_ids : list string) : DataFrame :=
  mkDataFrame (columns df)
    (filter (fun r => negb (isin (cell_of "id" (columns df) r) existing_ids)) (rows df)).

(** The lines that [df.to_csv(..., mode="a", index=False, header=...)] adds. *)
Definition csv_lines (df : DataFrame) (header : bool) : list line :=
  (if header then [Header (columns df)] else []) ++ map Row (rows df).

Definition to_csv (df : DataFrame) (header : bool) (w : World) : World :=
  let old := match output_file w with Some ls => ls | None => [] end in
  mkWorld (Some (old ++ csv_lines df header)) (checkpoint_file w)
          (events w ++ [Write (csv_lines df header)]).

(** The last four lines of both [append_chunk]s. *)
Definition write_chunk (df : DataFrame) (st : State) (w : World) : State * World :=
  let write_header := negb (written_header st) in
  let w := to_csv df write_header w in
  (mkState (year st) (offset st) true (total_saved st + len df), w).

(** [append_chunk]; the value is what the function returns, [None] for the
    backfill's, which returns nothing. *)
Definition append_chunk (s : script) (df : DataFrame) (st : State)
    (existing_ids : list string) (w : World) : option Z * State * World :=
  match s with
  | get_data =>
      let '(st, w) := write_chunk df st w in (None, st, w)
  | get_more_data =>
      let df := if mem "id" (columns df) then drop_known df existing_ids else df in
      if empty df then (Some 0, st, w)
      else let '(st, w) := write_chunk df st w in (Some (len df), st, w)
  end.

(** ** Page fetcher *)

(** [f"{n}"] *)
Definition str (n : Z) : string := NilZero.string_of_int (Z.to_int n).

Definition request_params (y ofs : Z) : params :=
  mkParams RPP ofs (String.append "01/01/" (str y)) (String.append "12/31/" (str y))
           "NSF" "US" PRINT_FIELDS.

(** What a call of [fetch_page] returns, with what it did on the way: the
    number of requests it sent and the seconds of each [time.sleep]. *)
Record fetched : Type := mkFetched {
  awards : json;
  attempts : nat;
  sleeps : list Z
}.

(** The sleeps after [n] failed attempts in a row, the first of them numbered
    [first]. *)
Definition back_off (first n : nat) : list Z :=
  map (fun attempt => 2 * Z.of_nat attempt) (seq first n).

(** The outcome of a run of the driving loop on a bounded number of pages. *)
Inductive outcome : Type :=
| Done (st : State) (w : World)                     (* the loop ended *)
| Interrupted (y ofs : Z) (st : State) (w : World)  (* stopped before fetching page [(y, ofs)] *)
| Crashed (e : exn) (w : World).                    (* an exception left [main] *)

(** One turn of the inner [while True]. *)
Inductive step : Type :=
| NextPage (ofs : Z) (st : State) (w : World)
| YearDone (y : Z) (st : State) (w : World)   (* [break], with the new [y] *)
| Stop (e : exn) (w : World).

Definition log (e : event) (w : World) : World :=
  mkWorld (output_file w) (checkpoint_file w) (events w ++ [e]).

Section Harvester.

(** The remote source: the end of the [attempt]-th request of a page. *)
Variable http_get : params -> nat -> response.

(** [pd.read_csv(OUTPUT_FILE, usecols=["id"])["id"].dropna().astype(str)]:
    the identifiers pandas reads back from the output file, or the exception
    it raises (the file has no [id] column, or cannot be parsed). *)
Variable read_ids : list line -> result (list string).

Variable CURRENT_YEAR : Z.

(** The body of the [try] block. *)
Definition attempt_page (p : params) (attempt : nat) : result json :=
  data <- match http_get p attempt with
          | Failed => Raise RequestException
          | Body data => Ok data
          end ;;
  r <- py_get data "response" (JObj []) ;;
  py_get r "award" (JArr []).

(** [for attempt in range(1, MAX_RETRIES + 1)], on the attempts still to make. *)
Fixpoint retry (p : params) (attempts_left : list nat) : result fetched :=
  match attempts_left with
  | [] => Ok (mkFetched (JArr []) 0 [])
  | attempt :: rest =>
      try_except
        (a <- attempt_page p attempt ;; Ok (mkFetched a 1 []))
        (fun _ =>
           f <- retry p rest ;;
           Ok (mkFetched (awards f) (S (attempts f))
                         (2 * Z.of_nat attempt :: sleeps f)))
  end.

Definition fetch_page (y ofs : Z) : result fetched :=
  retry (request_params y ofs) (seq 1 MAX_RETRIES).

(** ** Existing identifiers *)

Definition load_existing_ids (w : World) : list string :=
  match output_file w with
  | None => []
  | Some ls =>
      match read_ids ls with
      | Ok ids => ids
      | Raise _ => []
      end
  end.

(** ** Driving loop *)

(** Year exhausted: [y -= 1; state["year"] = y; state["offset"] = 1;
    save_checkpoint(state); break]. *)
Definition finish_year (y : Z) (st : State) (w : World) : step :=
  let y := y - 1 in
  let st := set_offset 1 (set_year y st) in
  YearDone y st (save_checkpoint st w).

(** [df = pd.DataFrame(awards); append_chunk(df, state, ...);
    save_checkpoint(state)] *)
Definition merge_page (s : script) (existing_ids : list string) (df : DataFrame)
    (st : State) (w : World) : State * World :=
  let '(_, st, w) := append_chunk s df st existing_ids w in
  (st, save_checkpoint st w).

Definition page_step (s : script) (existing_ids : list string) (y ofs : Z)
    (st : State) (w : World) : step :=
  let w := log (Fetch y ofs) w in
  match fetch_page y ofs with
  | Raise e => Stop e w
  | Ok f =>
      if negb (truthy (awards f)) then finish_year y st w
      else
        match data_frame (awards f) with
        | Raise e => Stop e w
        | Ok df =>
            let '(st, w) := merge_page s existing_ids df st w in
            let count := len df in
            if count <? RPP then finish_year y st w
            else
              let ofs := ofs + RPP in
              let st := set_offset ofs st in
              NextPage ofs st (save_checkpoint st w)
        end
  end.

(** The two nested loops, on at most [fuel] pages. After a [break] the outer
    [while y >= YEAR_START] either starts the next year at
    [max(state["offset"], 1)] or ends. *)
Fixpoint pages (s : script) (existing_ids : list string) (fuel : nat) (y ofs : Z)
    (st : State) (w : World) : outcome :=
  match fuel with
  | O => Interrupted y ofs st w
  | S fuel =>
      match page_step s existing_ids y ofs st w with
      | Stop e w => Crashed e w
      | NextPage ofs st w => pages s existing_ids fuel y ofs st w
      | YearDone y st w =>
          if YEAR_START <=? y
          then pages s existing_ids fuel y (Z.max (offset st) 1) st w
          else Done st w
      end
  end.

(** The outer loop from its head. *)
Definition years (s : script) (existing_ids : list string) (fuel : nat) (y : Z)
    (st : State) (w : World) : outcome :=
  if YEAR_START <=? y
  then pages s existing_ids fuel y (Z.max (offset st) 1) st w
  else Done st w.

Definition main (s : script) (fuel : nat) (w : World) : outcome :=
  let w := reset_files s w in
  match state <- load_checkpoint s CURRENT_YEAR w ;; state_of_json state with
  | Raise e => Crashed e w
  | Ok st =>
      let existing_ids :=
        match s with
        | get_data => []
        | get_more_data => load_existing_ids w
        end in
      years s existing_ids fuel (year st) st w
  end.

(** ** Observations on a run *)

(** How a fetched page steers the loop, whatever the state: the year is
    exhausted (an empty or a short page), the next page of the year follows,
    or the run stops on an exception. *)
Inductive verdict : Type :=
| Exhausted
| Full
| Broken (e : exn).

Definition page_kind (y ofs : Z) : verdict :=
  match fetch_page y ofs with
  | Raise e => Broken e
  | Ok f =>
      if negb (truthy (awards f)) then Exhausted
      else
        match data_frame (awards f) with
        | Raise e => Broken e
        | Ok df => if len df <? RPP then Exhausted else Full
        end
  end.


(** The state and the world of a turn once its page is fetched and, if it has
    rows, merged and saved: before the turn moves the year or the offset. *)
Definition merged (s : script) (existing_ids : list string) (y ofs : Z)
    (st : State) (w : World) : State * World :=
  let w := log (Fetch y ofs) w in
  match fetch_page y ofs with
  | Raise _ => (st, w)
  | Ok f =>
      if negb (truthy (awards f)) then (st, w)
      else
        match data_frame (awards f) with
        | Raise _ => (st, w)
        | Ok df => merge_page s existing_ids df st w
        end
  end.

(** The pages a run of at most [fuel] pages asks for, from page [(y, ofs)]. *)
Fixpoint itinerary (fuel : nat) (y ofs : Z) : list (Z * Z) :=
  match fuel with
  | O => []
  | S fuel =>
      (y, ofs) ::
      match page_kind y ofs with
      | Broken _ => []
      | Full => itinerary fuel y (ofs + RPP)
      | Exhausted => if YEAR_START <=? y - 1 then itinerary fuel (y - 1) 1 else []
      end
  end.

(** A fresh run of the update on world [w] starts at page [(y, ofs)] with
    state [st]. *)
Definition resumes_at (w : World) (y ofs : Z) (st : State) : Prop :=
  (state <- load_checkpoint get_more_data CURRENT_YEAR w ;; state_of_json state) = Ok st /\
  year st = y /\ Z.max (offset st) 1 = ofs.

End Harvester.

Definition world_of (o : outcome) : World :=
  match o with
  | Done _ w | Interrupted _ _ _ w | Crashed _ w => w
  end.

(** The lines of the output file, none when it does not exist. *)
Definition content (w : World) : list line :=
  match output_file w with Some ls => ls | None => [] end.

(** The pages fetched so far, oldest first. *)
Definition requests_of (es : list event) : list (Z * Z) :=
  flat_map (fun e => match e with Fetch y ofs => [(y, ofs)] | _ => [] end) es.

Definition requests (w : World) : list (Z * Z) := requests_of (events w).

(** The lines handed to [to_csv] so far, oldest first. *)
Definition written_of (es : list event) : list line :=
  flat_map (fun e => match e with Write ls => ls | _ => [] end) es.

Definition written (w : World) : list line := written_of (events w).

Definition is_header (l : line) : bool :=
  match l with Header _ => true | Row _ => false end.

Definition headers (ls : list line) : nat := List.length (filter is_header ls).

Definition no_header (ls : list line) : bool := forallb (fun l => negb (is_header l)) ls.

(** The lines a run hands to [to_csv], given whether the header was written
    when it started: rows only, or nothing, or one header and then rows. *)
Definition header_once (header_was_written : bool) (added : list line) : Prop :=
  if header_was_written then no_header added = true
  else added = [] \/
       exists cols rest, added = Header cols :: rest /\ rest <> [] /\ no_header rest = true.

(** What a turn adds to the events after its fetch and before its last save:
    nothing, the save that follows the merge, or a write and that save. *)
Definition merge_events (mid : list event) : Prop :=
  mid = [] \/ (exists st, mid = [Save st]) \/ (exists ls st, mid = [Write ls; Save st]).

Definition state_of (o : outcome) (default : State) : State :=
  match o with
  | Done st _ | Interrupted _ _ st _ => st
  | Crashed _ _ => default
  end.

Definition nonempty (ls : list line) : bool :=
  match ls with [] => false | _ => true end.

(** A turn on page [(y, ofs)] that took the world from [w] to [w'] and the
    state to [st'] left [st'] in the checkpoint file, its last event is that
    save, and between its fetch and that save any write is followed at once
    by a save. *)
Definition saved_turn (y ofs : Z) (w : World) (st' : State) (w' : World) : Prop :=
  checkpoint_file w' = Holds (json_of_state st') /\
  exists mid,
    events w' = events w ++ Fetch y ofs :: mid ++ [Save st'] /\ merge_events mid.

(** The number of rows among some lines of the output file. *)
Definition data_rows (ls : list line) : Z :=
  Z.of_nat (List.length (filter (fun l => negb (is_header l)) ls)).

(** The run came to an end within its pages: the loop ended or an exception
    left [main]. *)
Definition ended (o : outcome) : Prop :=
  match o with
  | Interrupted _ _ _ _ => False
  | Done _ _ | Crashed _ _ => True
  end.




(** ** Sample data *)

Definition fresh_world : World := mkWorld None NoFile [].

(** A record as the field selection asks for it, without an identifier. *)
Definition plain_award : json := JObj [("agency", JStr "NSF"); ("title", JStr "Study")].

Definition award (i : string) : json := JObj [("id", JStr i); ("title", JStr "Study")].

Definition body (l : list json) : json := JObj [("response", JObj [("award", JArr l)])].

(** Year 2024 holds 28 plain records: a full page and a short one. *)
Definition plain_remote (p : params) (attempt : nat) : response :=
  if String.eqb (startDateStart p) "01/01/2024" && (p_offset p =? 1)
  then Body (body (repeat plain_award 25))
  else if String.eqb (startDateStart p) "01/01/2024" && (p_offset p =? 26)
  then Body (body (repeat plain_award 3))
  else Body (body []).

(** Year 2024 holds two identified records. *)
Definition id_remote (p : params) (attempt : nat) : response :=
  if String.eqb (startDateStart p) "01/01/2024" && (p_offset p =? 1)
  then Body (body [award "A123"; award "B456"])
  else Body (body []).

(** The batch of the two identified records. *)
Definition two_awards : DataFrame :=
  frame_of [ [("id", JStr "A123"); ("title", JStr "Study")];
             [("id", JStr "B456"); ("title", JStr "Study")] ].

(** The first page of [plain_remote]. *)
Definition first_page : DataFrame :=
  frame_of (repeat [("agency", JStr "NSF"); ("title", JStr "Study")] 25).

(** The world of a fresh update run on [plain_remote] that is stopped right
    after the save that follows the merge of its first page. *)
Definition stopped_after_merge : World :=
  snd (merged plain_remote get_more_data [] 2024 1 (mkState 2024 1 false 0) fresh_world).

(** The world a run leaves that was stopped after its first page, to be
    resumed: a header and 25 rows in the output, the offset at 26. *)
Definition resumable_world : World :=
  mkWorld (Some (Header ["agency"; "title"] :: map Row (rows first_page)))
          (Holds (json_of_state (mkState 2024 26 true 25))) [].

(** Every request fails. *)
Definition dead_remote (p : params) (attempt : nat) : response := Failed.

(** The first two requests of a page fail, the third answers an empty body. *)
Definition flaky_remote (p : params) (attempt : nat) : response :=
  if (attempt <? 3)%nat then Failed else Body (JObj []).

(** The identifiers of a file whose first line is a header with an [id]
    column; pandas raises on any other file. *)
Definition id_texts (cols : list string) (ls : list line) : list string :=
  flat_map (fun l => match l with
                     | Row r => match cell_of "id" cols r with
                                | Some (JStr i) => [i]
                                | _ => []
                                end
                     | Header _ => []
                     end) ls.

Definition header_read_ids (ls : list line) : result (list string) :=
  match ls with
  | Header cols :: ls' => if mem "id" cols then Ok (id_texts cols ls') else Raise ValueError
  | _ => Raise ValueError
  end.

Definition no_read_ids (ls : list line) : result (list string) := Raise ValueError.










(** Every page of every year is full. *)
Definition endless_remote (p : params) (attempt : nat) : response :=
  Body (body (repeat plain_award 25)).

(** * Properties *)

(** ** Dicts *)

Lemma lookup_store_same (k : string) (v : json) (d : dict) :
  lookup k (store k v d) = Some v.
Proof.
  induction d as [|[k' v'] d IH]; simpl.
  - now rewrite String.eqb_refl.
  - destruct (String.eqb k k') eqn:E; simpl; rewrite E; auto.
Qed.

Lemma lookup_store_other (k k' : string) (v : json) (d : dict) :
  k <> k' -> lookup k (store k' v d) = lookup k d.
Proof.
  intros Hk. induction d as [|[k0 v0] d IH]; simpl.
  - apply String.eqb_neq in Hk. now rewrite Hk.
  - destruct (String.eqb k' k0) eqn:E; simpl.
    + apply String.eqb_eq in E. subst k0.
      apply String.eqb_neq in Hk. now rewrite Hk.
    + now rewrite IH.
Qed.

Lemma state_of_json_of_state (st : State) :
  state_of_json (json_of_state st) = Ok st.
Proof. destruct st as [y o [|] t]; reflexivity. Qed.

(** ** Page fetcher *)

Section FetcherProperties.

Variable http_get : params -> nat -> response.

Lemma back_off_increasing (n first : nat) :
  StronglySorted Z.lt (back_off first n).
Proof.
  unfold back_off. revert first.
  induction n as [|n IH]; intros first; cbn [map seq]; constructor.
  - apply IH.
  - apply Forall_forall. intros z Hz.
    apply in_map_iff in Hz. destruct Hz as [k [<- Hk]].
    apply in_seq in Hk. lia.
Qed.

(** The retry loop on the attempts [first], ..., [first + m - 1]: it always
    returns; [n] attempts failed, each followed by its sleep, and either all
    [m] failed and the result is empty, or attempt [first + n] succeeded and
    its value is the result. *)
Lemma retry_spec (p : params) (m first : nat) :
  exists f n,
    retry http_get p (seq first m) = Ok f /\
    (n <= m)%nat /\
    (forall k, (first <= k < first + n)%nat -> exists e, attempt_page http_get p k = Raise e) /\
    sleeps f = back_off first n /\
    ((n = m /\ attempts f = m /\ awards f = JArr []) \/
     ((n < m)%nat /\ attempts f = S n /\ attempt_page http_get p (first + n) = Ok (awards f))).
Proof.
  revert first. induction m as [|m IH]; intros first.
  - exists (mkFetched (JArr []) 0 []), 0%nat. simpl.
    repeat split; auto. intros k Hk. lia.
  - simpl. destruct (attempt_page http_get p first) as [a|e] eqn:Ha; simpl.
    + exists (mkFetched a 1 []), 0%nat. simpl.
      repeat split; try lia.
      right. rewrite Nat.add_0_r. repeat split; auto. lia.
    + destruct (IH (S first)) as (f & n & Hf & Hn & Hfail & Hsleep & Hend).
      rewrite Hf. simpl.
      exists (mkFetched (awards f) (S (attempts f)) (2 * Z.of_nat first :: sleeps f)), (S n).
      simpl. repeat split.
      * lia.
      * intros k Hk. destruct (Nat.eq_dec k first) as [->|Hne].
        -- eauto.
        -- apply Hfail. lia.
      * unfold back_off in *. simpl. now rewrite Hsleep.
      * destruct Hend as [(-> & Hatt & Haw)|(Hlt & Hatt & Haw)].
        -- left. repeat split; auto.
        -- right. repeat split; try lia.
           now rewrite Nat.add_succ_r.
Qed.

Lemma fetch_page_returns (y ofs : Z) : exists f, fetch_page http_get y ofs = Ok f.
Proof.
  unfold fetch_page.
  destruct (retry_spec (request_params y ofs) MAX_RETRIES 1) as (f & _ & Hf & _).
  eauto.
Qed.

(** C3: [fetch_page] never raises: it returns after at most [MAX_RETRIES]
    requests; after each of the [n] requests that failed it slept
    [2 * attempt] seconds, so the sleeps are 2, 4, ..., [2 * n], strictly
    increasing; when all [MAX_RETRIES] requests failed the result is the empty
    list; otherwise it is what request [n + 1] found at [response.award], and
    a body without [response], or whose [response] has no [award], gives the
    empty list. *)
Theorem fetch_page_absorbs_failures (y ofs : Z) :
  let p := request_params y ofs in
  (exists f n,
      fetch_page http_get y ofs = Ok f /\
      (attempts f <= MAX_RETRIES)%nat /\
      (forall k, (1 <= k <= n)%nat -> exists e, attempt_page http_get p k = Raise e) /\
      sleeps f = back_off 1 n /\
      StronglySorted Z.lt (sleeps f) /\
      ((n = MAX_RETRIES /\ attempts f = MAX_RETRIES /\ awards f = JArr []) \/
       ((n < MAX_RETRIES)%nat /\ attempts f = S n /\
        attempt_page http_get p (S n) = Ok (awards f)))) /\
  (forall attempt d,
      http_get p attempt = Body (JObj d) ->
      match lookup "response" d with
      | None => attempt_page http_get p attempt = Ok (JArr [])
      | Some (JObj r) =>
          attempt_page http_get p attempt =
          Ok match lookup "award" r with Some a => a | None => JArr [] end
      | Some _ => attempt_page http_get p attempt = Raise AttributeError
      end).
Proof.
  intros p. split.
  - destruct (retry_spec p MAX_RETRIES 1) as (f & n & Hf & Hn & Hfail & Hsleep & Hend).
    exists f, n. repeat split.
    + exact Hf.
    + destruct Hend as [(_ & -> & _)|(Hlt & -> & _)]; lia.
    + intros k Hk. apply Hfail. lia.
    + exact Hsleep.
    + rewrite Hsleep. apply back_off_increasing.
    + destruct Hend as [H|(Hlt & Hatt & Haw)]; [now left|right].
      repeat split; auto.
  - intros attempt d Hbody. unfold attempt_page. rewrite Hbody. simpl.
    destruct (lookup "response" d) as [[| | | | |r]|]; reflexivity.
Qed.

End FetcherProperties.

(** ** Progress tracker *)

Lemma load_checkpoint_year (s : script) (CURRENT_YEAR : Z) (w : World) (state : json) :
  load_checkpoint s CURRENT_YEAR w = Ok state ->
  exists d v n,
    state = JObj d /\ lookup "year" d = Some v /\ as_int v = Ok n /\
    (n = YEAR_END s CURRENT_YEAR \/ YEAR_START <= n <= YEAR_END s CURRENT_YEAR).
Proof.
  unfold load_checkpoint.
  destruct (checkpoint_file w) as [| |j]; [| discriminate |].
  - intros [= <-]. exists (match default_state s CURRENT_YEAR w with JObj d => d | _ => [] end).
    exists (JInt (YEAR_END s CURRENT_YEAR)), (YEAR_END s CURRENT_YEAR).
    repeat split; auto.
  - destruct j as [| | | | |d]; try discriminate. cbn [py_get bind].
    assert (Hclamp : exists d',
      (d' <- py_setitem (JObj d) "year" (JInt (YEAR_END s CURRENT_YEAR)) ;;
       d'' <- py_setitem d' "offset" (JInt 1) ;; Ok d'') = Ok (JObj d') /\
      lookup "year" d' = Some (JInt (YEAR_END s CURRENT_YEAR))).
    { eexists. split; [reflexivity|].
      rewrite lookup_store_other by discriminate. apply lookup_store_same. }
    destruct Hclamp as (d' & Hd' & Hy').
    unfold py_gt.
    destruct (lookup "year" d) as [v|] eqn:Hv.
    + destruct (as_int v) as [n|] eqn:Hn; [|discriminate]. cbn [bind].
      destruct (YEAR_END s CURRENT_YEAR <? n) eqn:Habove.
      * rewrite Hd'. intros [= <-].
        exists d', (JInt (YEAR_END s CURRENT_YEAR)), (YEAR_END s CURRENT_YEAR).
        repeat split; auto.
      * cbn [py_getitem]. rewrite Hv. cbn [bind]. unfold py_lt. rewrite Hn. cbn [bind].
        destruct (n <? YEAR_START) eqn:Hbelow.
        -- rewrite Hd'. intros [= <-].
           exists d', (JInt (YEAR_END s CURRENT_YEAR)), (YEAR_END s CURRENT_YEAR).
           repeat split; auto.
        -- intros [= <-]. exists d, v, n. repeat split; auto. right. lia.
    + cbn [as_int bind]. rewrite Z.ltb_irrefl.
      cbn [py_getitem]. rewrite Hv. discriminate.
Qed.

Lemma load_checkpoint_in_range (s : script) (CURRENT_YEAR : Z) (w : World) (state : json) :
  YEAR_START <= YEAR_END s CURRENT_YEAR ->
  load_checkpoint s CURRENT_YEAR w = Ok state ->
  year_in_range s CURRENT_YEAR state.
Proof.
  intros Hcfg Hload.
  destruct (load_checkpoint_year s CURRENT_YEAR w state Hload)
    as (d & v & n & -> & Hv & Hn & Hrange).
  exists d, v, n. repeat split; auto; lia.
Qed.

Lemma state_of_json_year (d : dict) (st : State) :
  state_of_json (JObj d) = Ok st ->
  exists v, lookup "year" d = Some v /\ as_int v = Ok (year st).
Proof.
  unfold state_of_json. cbn [py_getitem].
  destruct (lookup "year" d) as [v|]; [|discriminate]. cbn [bind].
  destruct (as_int v) as [n|] eqn:Hn; [|discriminate]. cbn [bind].
  destruct (lookup "offset" d) as [vo|]; [|discriminate]. cbn [bind].
  destruct (as_int vo); [|discriminate]. cbn [bind].
  destruct (lookup "total_saved" d) as [vt|]; [|discriminate]. cbn [bind].
  destruct (as_int vt); [|discriminate]. cbn [bind].
  destruct (lookup "written_header" d); [|discriminate]. cbn [bind].
  intros [= <-]. exists v. split; [reflexivity|exact Hn].
Qed.

(** A checkpoint saved with a year in the range is loaded as it was saved. *)
Lemma load_saved (s : script) (CURRENT_YEAR : Z) (st : State) (w : World) :
  YEAR_START <= year st <= YEAR_END s CURRENT_YEAR ->
  checkpoint_file w = Holds (json_of_state st) ->
  (state <- load_checkpoint s CURRENT_YEAR w ;; state_of_json state) = Ok st.
Proof.
  intros Hrange Hfile. unfold load_checkpoint. rewrite Hfile.
  unfold json_of_state. cbn [py_get lookup String.eqb Ascii.eqb Bool.eqb bind py_gt as_int].
  replace (YEAR_END s CURRENT_YEAR <? year st) with false by (symmetry; apply Z.ltb_ge; lia).
  cbn [py_getitem lookup String.eqb Ascii.eqb Bool.eqb bind py_lt as_int].
  replace (year st <? YEAR_START) with false by (symmetry; apply Z.ltb_ge; lia).
  cbn [bind]. apply state_of_json_of_state.
Qed.

(** C4: a checkpoint whose year is above [YEAR_END] or below [YEAR_START]
    is returned with [year = YEAR_END] and [offset = 1], every other key as it
    was in the file; and the year of whatever [load_checkpoint] returns, from a
    file or as the default, lies in [YEAR_START .. YEAR_END] (in the update,
    where [YEAR_END] is the current year, as long as that year is not before
    [YEAR_START]). *)
Theorem load_checkpoint_clamps_year (s : script) (CURRENT_YEAR : Z) :
  (forall (w : World) (d : dict) (v : json) (n : Z),
     checkpoint_file w = Holds (JObj d) ->
     lookup "year" d = Some v ->
     as_int v = Ok n ->
     n > YEAR_END s CURRENT_YEAR \/ n < YEAR_START ->
     exists d',
       load_checkpoint s CURRENT_YEAR w = Ok (JObj d') /\
       lookup "year" d' = Some (JInt (YEAR_END s CURRENT_YEAR)) /\
       lookup "offset" d' = Some (JInt 1) /\
       forall k, k <> "year" -> k <> "offset" -> lookup k d' = lookup k d) /\
  (s = get_data \/ YEAR_START <= CURRENT_YEAR ->
   forall (w : World) (state : json),
     load_checkpoint s CURRENT_YEAR w = Ok state ->
     year_in_range s CURRENT_YEAR state /\
     forall st, state_of_json state = Ok st ->
       YEAR_START <= year st <= YEAR_END s CURRENT_YEAR).
Proof.
  split.
  - intros w d v n Hfile Hyear Hint Hout.
    exists (store "offset" (JInt 1) (store "year" (JInt (YEAR_END s CURRENT_YEAR)) d)).
    split; [|split; [|split]].
    + unfold load_checkpoint. rewrite Hfile. cbn [py_get bind]. rewrite Hyear.
      unfold py_gt. rewrite Hint. cbn [bind].
      destruct (YEAR_END s CURRENT_YEAR <? n) eqn:Habove; [reflexivity|].
      cbn [py_getitem]. rewrite Hyear. cbn [bind]. unfold py_lt. rewrite Hint. cbn [bind].
      destruct (n <? YEAR_START) eqn:Hbelow; [reflexivity|].
      apply Z.ltb_ge in Habove, Hbelow. lia.
    + rewrite lookup_store_other by discriminate. apply lookup_store_same.
    + apply lookup_store_same.
    + intros k Hk1 Hk2. now rewrite !lookup_store_other.
  - intros Hcfg' w' state Hload.
    assert (Hcfg : YEAR_START <= YEAR_END s CURRENT_YEAR).
    { destruct Hcfg' as [->|Hc]; [unfold YEAR_START; simpl; lia|].
      destruct s; [unfold YEAR_START; simpl; lia|exact Hc]. }
    pose proof (load_checkpoint_in_range s CURRENT_YEAR w' state Hcfg Hload) as Hin.
    split; [exact Hin|]. intros st Hst.
    destruct Hin as (d0 & v0 & n0 & -> & Hv0 & Hn0 & Hrange).
    destruct (state_of_json_year d0 st Hst) as (v1 & Hv1 & Hn1).
    congruence.
Qed.

(** C5, as the code has it: without a checkpoint file [load_checkpoint]
    returns the default state ([year = YEAR_END], [offset = 1],
    [total_saved = 0], no header written yet in the backfill, a header taken as
    written in the update when the output file exists); a file that [json.load]
    cannot parse makes it raise the decoder's error. *)
Theorem load_checkpoint_missing_or_garbled (s : script) (CURRENT_YEAR : Z) (w : World) :
  match checkpoint_file w with
  | NoFile =>
      (state <- load_checkpoint s CURRENT_YEAR w ;; state_of_json state) =
      Ok (mkState (YEAR_END s CURRENT_YEAR) 1
            match s with get_data => false | get_more_data => exists_output w end
            0)
  | Garbled => load_checkpoint s CURRENT_YEAR w = Raise JSONDecodeError
  | Holds _ => True
  end.
Proof.
  unfold load_checkpoint. destruct (checkpoint_file w); [reflexivity|reflexivity|exact I].
Qed.

(** ** Row merger *)

Lemma filter_keeps_all {A} (f : A -> bool) (l : list A) :
  (forall x, In x l -> f x = true) -> filter f l = l.
Proof.
  induction l as [|a l IH]; intros H; simpl; [reflexivity|].
  rewrite (H a (or_introl eq_refl)). f_equal. apply IH. intros x Hx. apply H. now right.
Qed.

Lemma filter_drops_all {A} (f : A -> bool) (l : list A) :
  (forall x, In x l -> f x = false) -> filter f l = [].
Proof.
  induction l as [|a l IH]; intros H; simpl; [reflexivity|].
  rewrite (H a (or_introl eq_refl)). apply IH. intros x Hx. apply H. now right.
Qed.

Lemma cell_of_absent (name : string) (cols : list string) (row : list cell) :
  mem name cols = false -> cell_of name cols row = None.
Proof.
  revert row. induction cols as [|c cols IH]; intros row H; simpl.
  - reflexivity.
  - destruct row as [|v row]; [reflexivity|].
    simpl in H. apply orb_false_iff in H. destruct H as [H1 H2].
    rewrite H1. now apply IH.
Qed.

Lemma mem_app (k : string) (l1 l2 : list string) :
  mem k (l1 ++ l2) = mem k l1 || mem k l2.
Proof. apply existsb_app. Qed.

Lemma mem_add_keys (k : string) (ks seen : list string) :
  mem k (add_keys seen ks) = mem k seen || mem k ks.
Proof.
  revert seen. induction ks as [|k0 ks IH]; intros seen; simpl.
  - now rewrite orb_false_r.
  - rewrite IH. destruct (mem k0 seen) eqn:E.
    + destruct (String.eqb k k0) eqn:Ek; simpl; [|reflexivity].
      apply String.eqb_eq in Ek. subst k0. rewrite E. reflexivity.
    + rewrite mem_app. simpl. rewrite orb_false_r. now rewrite orb_assoc.
Qed.

Lemma mem_keys_lookup (k : string) (r : dict) :
  mem k (map fst r) = match lookup k r with Some _ => true | None => false end.
Proof.
  induction r as [|[k0 v0] r IH]; simpl; [reflexivity|].
  destruct (String.eqb k k0); simpl; auto.
Qed.

Lemma mem_all_columns (k : string) (records : list dict) :
  mem k (all_columns records) = existsb (fun r => mem k (map fst r)) records.
Proof.
  unfold all_columns.
  change (existsb (fun r => mem k (map fst r)) records)
    with (mem k [] || existsb (fun r => mem k (map fst r)) records).
  generalize (@nil string) as seen.
  induction records as [|r records IH]; intros seen; simpl.
  - now rewrite orb_false_r.
  - rewrite IH, mem_add_keys. now rewrite orb_assoc.
Qed.

Lemma content_to_csv (df : DataFrame) (header : bool) (w : World) :
  content (to_csv df header w) = content w ++ csv_lines df header.
Proof. reflexivity. Qed.

Lemma empty_rows (cols : list string) (rs : list (list cell)) :
  cols <> [] -> empty (mkDataFrame cols rs) = match rs with [] => true | _ => false end.
Proof. intros H. unfold empty. simpl. destruct rs; [reflexivity|]. now destruct cols. Qed.

(** What the incremental [append_chunk] does with a frame that has a column,
    in terms of the rows [keep] that pass the filter. *)
Lemma append_chunk_keep (df : DataFrame) (st : State) (existing_ids : list string)
    (w : World) :
  columns df <> [] ->
  let keep := filter (fun r => negb (isin (cell_of "id" (columns df) r) existing_ids))
                     (rows df) in
  append_chunk get_more_data df st existing_ids w =
  match keep with
  | [] => (Some 0, st, w)
  | _ => (Some (Z.of_nat (List.length keep)),
          mkState (year st) (offset st) true (total_saved st + Z.of_nat (List.length keep)),
          to_csv (mkDataFrame (columns df) keep) (negb (written_header st)) w)
  end.
Proof.
  intros Hcols keep. unfold append_chunk.
  assert (Hdf : (if mem "id" (columns df) then drop_known df existing_ids else df)
                = mkDataFrame (columns df) keep).
  { destruct (mem "id" (columns df)) eqn:Hid; [reflexivity|].
    unfold keep. rewrite filter_keeps_all.
    - now destruct df.
    - intros r _. now rewrite cell_of_absent. }
  rewrite Hdf, empty_rows by assumption.
  destruct keep; reflexivity.
Qed.

(** C6: the incremental [append_chunk], on a batch with at least one
    column, appends exactly the rows whose identifier is not in
    [existing_ids] (after the header, when none was written yet and a row is
    appended), returns their number and adds it to [total_saved]; with
    ["A123"] known, of a batch with records ["A123"] and ["B456"] only the
    ["B456"] row is appended. *)
Theorem append_chunk_appends_unknown_rows (df : DataFrame) (st : State)
    (existing_ids : list string) (w : World)
    (Hcols : columns df <> []) :
  let keep := filter (fun r => negb (isin (cell_of "id" (columns df) r) existing_ids))
                     (rows df) in
  let header := if written_header st then []
                else match keep with [] => [] | _ => [Header (columns df)] end in
  (exists st' w',
      append_chunk get_more_data df st existing_ids w =
      (Some (Z.of_nat (List.length keep)), st', w') /\
      content w' = content w ++ header ++ map Row keep /\
      total_saved st' = total_saved st + Z.of_nat (List.length keep)) /\
  (data_frame (JArr [award "A123"; award "B456"]) = Ok two_awards /\
   content (snd (append_chunk get_more_data two_awards st ["A123"] w)) =
   content w ++ (if written_header st then [] else [Header ["id"; "title"]])
             ++ [Row [Some (JStr "B456"); Some (JStr "Study")]]).
Proof.
  intros keep header. split.
  - rewrite (append_chunk_keep df st existing_ids w Hcols). fold keep.
    unfold header. destruct keep as [|r keep'] eqn:Hk.
    + exists st, w. repeat split.
      * destruct (written_header st); simpl; now rewrite app_nil_r.
      * simpl. lia.
    + eexists _, _. split; [reflexivity|]. split; [|reflexivity].
      rewrite content_to_csv. unfold csv_lines. cbn [columns rows].
      now destruct (written_header st).
  - split; [reflexivity|].
    destruct st as [y o [|] t]; reflexivity.
Qed.

(** The merger leaves state and world alone on a batch it knows entirely. *)
Lemma append_chunk_known (df : DataFrame) (st : State) (existing_ids : list string)
    (w : World) :
  mem "id" (columns df) = true ->
  (forall r, In r (rows df) -> isin (cell_of "id" (columns df) r) existing_ids = true) ->
  append_chunk get_more_data df st existing_ids w = (Some 0, st, w).
Proof.
  intros Hid Hknown.
  assert (Hcols : columns df <> []).
  { intros E. rewrite E in Hid. discriminate. }
  rewrite (append_chunk_keep df st existing_ids w Hcols). cbv zeta.
  rewrite filter_drops_all; [reflexivity|].
  intros r Hr. now rewrite Hknown.
Qed.

(** C9: when the batch has an [id] column and every row's identifier is in
    [existing_ids], the incremental [append_chunk] returns 0 and hands back
    the state and the world as they were: nothing is written, no event is
    added, [written_header] and [total_saved] keep their values. *)
Theorem append_chunk_all_known_is_noop (df : DataFrame) (st : State)
    (existing_ids : list string) (w : World)
    (Hid : mem "id" (columns df) = true)
    (Hknown : forall r, In r (rows df) ->
                isin (cell_of "id" (columns df) r) existing_ids = true) :
  append_chunk get_more_data df st existing_ids w = (Some 0, st, w) /\
  output_file (snd (append_chunk get_more_data df st existing_ids w)) = output_file w /\
  events (snd (append_chunk get_more_data df st existing_ids w)) = events w /\
  written_header (snd (fst (append_chunk get_more_data df st existing_ids w))) =
    written_header st /\
  total_saved (snd (fst (append_chunk get_more_data df st existing_ids w))) =
    total_saved st.
Proof.
  rewrite (append_chunk_known df st existing_ids w Hid Hknown). repeat split.
Qed.

Lemma no_id_column (records : list dict) :
  (forall r, In r records -> lookup "id" r = None) ->
  mem "id" (all_columns records) = false.
Proof.
  intros H. rewrite mem_all_columns.
  induction records as [|r records IH]; simpl; [reflexivity|].
  rewrite mem_keys_lookup, (H r (or_introl eq_refl)). simpl.
  apply IH. intros r' Hr'. apply H. now right.
Qed.

Lemma all_columns_nil : all_columns [] = [].
Proof. reflexivity. Qed.

(** C10: a batch none of whose records has an [id] field (and that has a
    column at all) goes to the output whole, whatever [existing_ids] and
    the output file hold: all its rows are appended, their number is returned
    and added to [total_saved]; and [id] is not among the fields every request
    asks for. *)
Theorem append_chunk_without_id_appends_all (records : list dict) (st : State)
    (existing_ids : list string) (w : World)
    (Hno : forall r, In r records -> lookup "id" r = None)
    (Hcols : all_columns records <> []) :
  let df := frame_of records in
  let n := Z.of_nat (List.length records) in
  append_chunk get_more_data df st existing_ids w =
    (Some n, mkState (year st) (offset st) true (total_saved st + n),
     to_csv df (negb (written_header st)) w) /\
  content (to_csv df (negb (written_header st)) w) =
    content w ++ (if written_header st then [] else [Header (columns df)])
              ++ map Row (rows df) /\
  List.length (rows df) = List.length records /\
  mem "id" fields = false /\
  (forall y ofs, printFields (request_params y ofs) = String.concat "," fields).
Proof.
  intros df n.
  assert (Hrows : List.length (rows df) = List.length records).
  { unfold df, frame_of. cbn [rows]. apply length_map. }
  split; [|split; [|split; [exact Hrows|split; reflexivity]]].
  - unfold append_chunk.
    assert (Hid : mem "id" (columns df) = false) by now apply no_id_column.
    rewrite Hid.
    assert (Hne : empty df = false).
    { unfold empty. destruct (rows df) eqn:Hr.
      - destruct records; [now rewrite all_columns_nil in Hcols|discriminate].
      - unfold df, frame_of. cbn [columns]. now destruct (all_columns records). }
    rewrite Hne. unfold write_chunk, len. rewrite Hrows. reflexivity.
  - rewrite content_to_csv. unfold csv_lines. now destruct (written_header st).
Qed.

(** ** Driving loop *)

Lemma requests_of_app (a b : list event) :
  requests_of (a ++ b) = requests_of a ++ requests_of b.
Proof. apply flat_map_app. Qed.

Lemma written_of_app (a b : list event) :
  written_of (a ++ b) = written_of a ++ written_of b.
Proof. apply flat_map_app. Qed.

Lemma records_of_length (l : list json) (records : list dict) :
  records_of l = Ok records -> List.length records = List.length l.
Proof.
  revert records. induction l as [|j l IH]; intros records; simpl.
  - now intros [= <-].
  - destruct j as [| | | | |d]; try discriminate.
    destruct (forallb _ d); [|discriminate].
    destruct (records_of l) as [ds|]; [|discriminate]. simpl.
    intros [= <-]. simpl. f_equal. now apply IH.
Qed.

(** A frame built from awards that passed [if not awards] has a row. *)
Lemma data_frame_rows (a : json) (df : DataFrame) :
  truthy a = true -> data_frame a = Ok df -> rows df <> [].
Proof.
  intros Ht Hdf. destruct a as [| | | |l|]; try discriminate.
  simpl in Hdf. destruct (records_of l) as [records|] eqn:Hr; [|discriminate].
  injection Hdf as <-. apply records_of_length in Hr. cbn [frame_of rows].
  destruct l; [discriminate|]. destruct records; [discriminate|]. discriminate.
Qed.

(** What a call of [append_chunk] leaves behind: nothing at all, or one write
    of rows, with the header first when the state says none was written. *)
Lemma append_chunk_effect (s : script) (df : DataFrame) (st : State)
    (existing_ids : list string) (w : World) :
  exists r st' w',
    append_chunk s df st existing_ids w = (r, st', w') /\
    ((st' = st /\ w' = w) \/
     (exists cols rs,
         (rows df <> [] -> rs <> []) /\
         st' = mkState (year st) (offset st) true (total_saved st + Z.of_nat (List.length rs)) /\
         w' = to_csv (mkDataFrame cols rs) (negb (written_header st)) w)).
Proof.
  destruct s; unfold append_chunk.
  - eexists _, _, _. split; [reflexivity|]. right.
    exists (columns df), (rows df). repeat split; auto; now destruct df.
  - set (df' := if mem "id" (columns df) then drop_known df existing_ids else df).
    destruct (empty df') eqn:He.
    + eexists _, _, _. split; [reflexivity|]. now left.
    + eexists _, _, _. split; [reflexivity|]. right.
      exists (columns df'), (rows df').
      split; [unfold empty in He; now destruct (rows df')|].
      split; [reflexivity|]. now destruct df'.
Qed.

Lemma no_header_rows (rs : list (list cell)) : no_header (map Row rs) = true.
Proof. induction rs; simpl; auto. Qed.

Lemma no_header_app (a b : list line) :
  no_header (a ++ b) = no_header a && no_header b.
Proof. apply forallb_app. Qed.

Lemma written_to_csv (df : DataFrame) (header : bool) (w : World) :
  written (to_csv df header w) = written w ++ csv_lines df header.
Proof.
  unfold written. simpl. rewrite written_of_app. simpl. now rewrite app_nil_r.
Qed.

Lemma written_save (st : State) (w : World) :
  written (save_checkpoint st w) = written w.
Proof. unfold written. simpl. rewrite written_of_app. simpl. apply app_nil_r. Qed.

Lemma written_log_fetch (y ofs : Z) (w : World) :
  written (log (Fetch y ofs) w) = written w.
Proof. unfold written. simpl. rewrite written_of_app. simpl. apply app_nil_r. Qed.

(** One more batch of lines after a first one keeps the header single. *)
Lemma header_once_app (h : bool) (delta added : list line) (cols : list string)
    (rs : list (list cell)) :
  (delta = [] \/ (rs <> [] /\ delta = csv_lines (mkDataFrame cols rs) (negb h))) ->
  header_once (h || match delta with [] => false | _ => true end) added ->
  header_once h (delta ++ added).
Proof.
  intros [->|[Hrs ->]] Hadd.
  - now rewrite orb_false_r in Hadd.
  - unfold csv_lines in *. cbn [columns rows] in *. destruct h; cbn [negb orb] in *.
    + cbn [header_once app] in *. now rewrite no_header_app, no_header_rows.
    + cbn [header_once app] in *. right. exists cols, (map Row rs ++ added).
      split; [reflexivity|]. split.
      * destruct rs; [contradiction|discriminate].
      * now rewrite no_header_app, no_header_rows.
Qed.

Section LoopProperties.

Variable http_get : params -> nat -> response.
Variable read_ids : list line -> result (list string).
Variable CURRENT_YEAR : Z.

Lemma page_step_eq (s : script) (ids : list string) (y ofs : Z) (st : State) (w : World) :
  page_step http_get s ids y ofs st w =
  let (st1, w1) := merged http_get s ids y ofs st w in
  match page_kind http_get y ofs with
  | Broken e => Stop e w1
  | Exhausted => finish_year y st1 w1
  | Full =>
      NextPage (ofs + RPP) (set_offset (ofs + RPP) st1)
               (save_checkpoint (set_offset (ofs + RPP) st1) w1)
  end.
Proof.
  unfold page_step, merged, page_kind.
  destruct (fetch_page http_get y ofs) as [f|e]; [|reflexivity].
  destruct (negb (truthy (awards f))); [reflexivity|].
  destruct (data_frame (awards f)) as [df|e]; [|reflexivity].
  destruct (merge_page s ids df st (log (Fetch y ofs) w)) as [st1 w1].
  destruct (len df <? RPP); reflexivity.
Qed.

Lemma pages_S (s : script) (ids : list string) (fuel : nat) (y ofs : Z)
    (st : State) (w : World) :
  pages http_get s ids (S fuel) y ofs st w =
  let (st1, w1) := merged http_get s ids y ofs st w in
  match page_kind http_get y ofs with
  | Broken e => Crashed e w1
  | Exhausted =>
      let st' := set_offset 1 (set_year (y - 1) st1) in
      if YEAR_START <=? y - 1
      then pages http_get s ids fuel (y - 1) 1 st' (save_checkpoint st' w1)
      else Done st' (save_checkpoint st' w1)
  | Full =>
      pages http_get s ids fuel y (ofs + RPP) (set_offset (ofs + RPP) st1)
            (save_checkpoint (set_offset (ofs + RPP) st1) w1)
  end.
Proof.
  cbn [pages]. rewrite page_step_eq.
  destruct (merged http_get s ids y ofs st w) as [st1 w1].
  destruct (page_kind http_get y ofs); reflexivity.
Qed.

(** The three ways a turn can reach its year or offset update. *)
Lemma merged_spec (s : script) (ids : list string) (y ofs : Z) (st : State) (w : World) :
  let w0 := log (Fetch y ofs) w in
  exists st1 w1,
    merged http_get s ids y ofs st w = (st1, w1) /\
    ((st1 = st /\ w1 = w0) \/
     (st1 = st /\ w1 = save_checkpoint st w0) \/
     (exists cols rs,
         rs <> [] /\
         st1 = mkState (year st) (offset st) true
                       (total_saved st + Z.of_nat (List.length rs)) /\
         w1 = save_checkpoint st1
                (to_csv (mkDataFrame cols rs) (negb (written_header st)) w0))).
Proof.
  intros w0. unfold merged. fold w0.
  destruct (fetch_page http_get y ofs) as [f|e]; [|eauto 6].
  destruct (truthy (awards f)) eqn:Ht; [|simpl; eauto 6]. simpl.
  destruct (data_frame (awards f)) as [df|e] eqn:Hdf; [|eauto 6].
  unfold merge_page.
  destruct (append_chunk_effect s df st ids w0)
    as (r & st' & w' & Happ & [[-> ->]|(cols & rs & Hrs & -> & ->)]);
    rewrite Happ.
  - eexists _, _. split; [reflexivity|]. right. left. now split.
  - eexists _, _. split; [reflexivity|]. right. right.
    exists cols, rs. repeat split. apply Hrs. eapply data_frame_rows; eauto.
Qed.

Lemma merged_requests (s : script) (ids : list string) (y ofs : Z) (st : State) (w : World) :
  requests (snd (merged http_get s ids y ofs st w)) = requests w ++ [(y, ofs)].
Proof.
  destruct (merged_spec s ids y ofs st w)
    as (st1 & w1 & -> & [[_ ->]|[[_ ->]|(cols & rs & _ & _ & ->)]]);
    unfold requests; simpl; rewrite ?requests_of_app; simpl;
    rewrite ?requests_of_app; simpl; now rewrite ?app_nil_r.
Qed.

Lemma requests_save (st : State) (w : World) :
  requests (save_checkpoint st w) = requests w.
Proof. unfold requests. simpl. rewrite requests_of_app. simpl. apply app_nil_r. Qed.

(** The pages a run fetches depend on where it starts and on the remote
    source alone. *)
Lemma pages_requests (s : script) (ids : list string) (fuel : nat) :
  forall y ofs st w,
    requests (world_of (pages http_get s ids fuel y ofs st w)) =
    requests w ++ itinerary http_get fuel y ofs.
Proof.
  induction fuel as [|fuel IH]; intros y ofs st w.
  - simpl. now rewrite app_nil_r.
  - rewrite pages_S. cbn [itinerary].
    pose proof (merged_requests s ids y ofs st w) as Hreq.
    destruct (merged http_get s ids y ofs st w) as [st1 w1]. cbn [snd] in Hreq.
    destruct (page_kind http_get y ofs).
    + cbv zeta. destruct (YEAR_START <=? y - 1).
      * rewrite IH, requests_save, Hreq. now rewrite <- app_assoc.
      * cbn [world_of]. now rewrite requests_save, Hreq.
    + rewrite IH, requests_save, Hreq. now rewrite <- app_assoc.
    + cbn [world_of]. now rewrite Hreq.
Qed.

Lemma itinerary_order (fuel : nat) :
  forall y ofs y' ofs',
    In (y', ofs') (itinerary http_get fuel y ofs) ->
    y' < y \/ (y' = y /\ ofs <= ofs').
Proof.
  induction fuel as [|fuel IH]; intros y ofs y' ofs' Hin; [contradiction|].
  cbn [itinerary] in Hin. destruct Hin as [[= <- <-]|Hin]; [right; lia|].
  destruct (page_kind http_get y ofs); [| |contradiction].
  - destruct (YEAR_START <=? y - 1); [|contradiction].
    apply IH in Hin. lia.
  - apply IH in Hin. unfold RPP in Hin. lia.
Qed.

Lemma itinerary_NoDup (fuel : nat) :
  forall y ofs, NoDup (itinerary http_get fuel y ofs).
Proof.
  induction fuel as [|fuel IH]; intros y ofs; cbn [itinerary]; constructor.
  - destruct (page_kind http_get y ofs); [| |auto].
    + destruct (YEAR_START <=? y - 1); [|auto].
      intros Hin. apply itinerary_order in Hin. lia.
    + intros Hin. apply itinerary_order in Hin. unfold RPP in Hin. lia.
  - destruct (page_kind http_get y ofs); [| |constructor].
    + destruct (YEAR_START <=? y - 1); [apply IH|constructor].
    + apply IH.
Qed.

Lemma years_requests (s : script) (ids : list string) (fuel : nat) (y : Z)
    (st : State) (w : World) :
  exists later,
    requests (world_of (years http_get s ids fuel y st w)) = requests w ++ later /\
    forall y' ofs', In (y', ofs') later -> y' <= y.
Proof.
  unfold years. destruct (YEAR_START <=? y).
  - exists (itinerary http_get fuel y (Z.max (offset st) 1)). split.
    + apply pages_requests.
    + intros y' ofs' Hin. apply itinerary_order in Hin. lia.
  - exists []. split; [now rewrite app_nil_r|contradiction].
Qed.

(** C2: a turn of the inner loop on page [(y, ofs)]. An empty page
    ([not awards]) sets [year = y - 1] and [offset = 1], saves the checkpoint
    and goes back to the outer loop at year [y - 1]. A page with rows is
    merged and saved first; with fewer than [RPP] records the turn then ends
    the year in the same way, without another fetch; with [RPP] records it
    sets [offset = ofs + RPP], saves and fetches the next page of year [y].
    Once the outer loop is at year [y - 1], every page it fetches is of a
    year below [y]. *)
Theorem year_exhausted_on_empty_or_short_page (s : script) (ids : list string)
    (fuel : nat) (y ofs : Z) (st : State) (w : World) (f : fetched)
    (Hf : fetch_page http_get y ofs = Ok f) :
  let w0 := log (Fetch y ofs) w in
  (truthy (awards f) = false ->
   let st' := set_offset 1 (set_year (y - 1) st) in
   pages http_get s ids (S fuel) y ofs st w =
   years http_get s ids fuel (y - 1) st' (save_checkpoint st' w0) /\
   checkpoint_file (save_checkpoint st' w0) = Holds (json_of_state st') /\
   events (save_checkpoint st' w0) = events w ++ [Fetch y ofs; Save st']) /\
  (forall df,
     truthy (awards f) = true -> data_frame (awards f) = Ok df ->
     let st1 := fst (merge_page s ids df st w0) in
     let w1 := snd (merge_page s ids df st w0) in
     (len df < RPP ->
      let st' := set_offset 1 (set_year (y - 1) st1) in
      pages http_get s ids (S fuel) y ofs st w =
      years http_get s ids fuel (y - 1) st' (save_checkpoint st' w1) /\
      checkpoint_file (save_checkpoint st' w1) = Holds (json_of_state st') /\
      requests (save_checkpoint st' w1) = requests w ++ [(y, ofs)]) /\
     (len df = RPP ->
      let st' := set_offset (ofs + RPP) st1 in
      pages http_get s ids (S fuel) y ofs st w =
      pages http_get s ids fuel y (ofs + RPP) st' (save_checkpoint st' w1) /\
      checkpoint_file (save_checkpoint st' w1) = Holds (json_of_state st') /\
      year st' = year st)) /\
  (forall fuel' st' w',
     exists later,
       requests (world_of (years http_get s ids fuel' (y - 1) st' w')) =
       requests w' ++ later /\
       forall y' ofs', In (y', ofs') later -> y' < y).
Proof.
  intros w0. split; [|split].
  - intros Ht st'. split; [|split; [reflexivity|]].
    + cbn [pages]. unfold page_step. rewrite Hf, Ht. reflexivity.
    + cbn [save_checkpoint json_dump open_w events w0 log]. now rewrite <- app_assoc.
  - intros df Ht Hdf st1 w1.
    assert (Hreq : requests w1 = requests w ++ [(y, ofs)]).
    { pose proof (merged_requests s ids y ofs st w) as H.
      unfold merged in H. rewrite Hf, Ht, Hdf in H. exact H. }
    assert (Hyear : year st1 = year st).
    { unfold st1, merge_page.
      destruct (append_chunk_effect s df st ids w0)
        as (r & st2 & w2 & Happ & [[-> ->]|(cols & rs & _ & -> & ->)]);
        rewrite Happ; reflexivity. }
    split.
    + intros Hshort st'. split; [|split].
      * cbn [pages]. unfold page_step. rewrite Hf, Ht, Hdf. cbn [negb].
        fold w0. rewrite (surjective_pairing (merge_page s ids df st w0)).
        fold st1 w1. apply Z.ltb_lt in Hshort. rewrite Hshort. reflexivity.
      * reflexivity.
      * now rewrite requests_save.
    + intros Hfull st'. split; [|split].
      * cbn [pages]. unfold page_step. rewrite Hf, Ht, Hdf. cbn [negb].
        fold w0. rewrite (surjective_pairing (merge_page s ids df st w0)).
        fold st1 w1. rewrite Hfull, Z.ltb_irrefl. reflexivity.
      * reflexivity.
      * exact Hyear.
  - intros fuel' st' w'.
    destruct (years_requests s ids fuel' (y - 1) st' w') as (later & Hreq & Hlater).
    exists later. split; [exact Hreq|].
    intros y' ofs' Hin. apply Hlater in Hin. lia.
Qed.

(** What a turn hands to [to_csv], and what it makes of [written_header]. *)
Lemma merged_written (s : script) (ids : list string) (y ofs : Z) (st : State) (w : World) :
  exists st1 w1 delta cols rs,
    merged http_get s ids y ofs st w = (st1, w1) /\
    written w1 = written w ++ delta /\
    (delta = [] \/
     (rs <> [] /\ delta = csv_lines (mkDataFrame cols rs) (negb (written_header st)))) /\
    written_header st1 = written_header st || nonempty delta.
Proof.
  destruct (merged_spec s ids y ofs st w)
    as (st1 & w1 & Hm & [[-> ->]|[[-> ->]|(cols & rs & Hrs & -> & ->)]]).
  - exists st, (log (Fetch y ofs) w), [], [], []. repeat split; auto.
    + now rewrite written_log_fetch, app_nil_r.
    + now rewrite orb_false_r.
  - exists st, (save_checkpoint st (log (Fetch y ofs) w)), [], [], [].
    repeat split; auto.
    + now rewrite written_save, written_log_fetch, app_nil_r.
    + now rewrite orb_false_r.
  - eexists _, _, (csv_lines (mkDataFrame cols rs) (negb (written_header st))), cols, rs.
    split; [exact Hm|]. split; [|split; [right; now split|]].
    + now rewrite written_save, written_to_csv, written_log_fetch.
    + cbn [written_header]. unfold csv_lines. cbn [columns rows].
      destruct (written_header st); [reflexivity|].
      cbn. reflexivity.
Qed.

Lemma pages_written (s : script) (ids : list string) (fuel : nat) :
  forall y ofs st w,
  exists added,
    written (world_of (pages http_get s ids fuel y ofs st w)) = written w ++ added /\
    header_once (written_header st) added /\
    match pages http_get s ids fuel y ofs st w with
    | Done st' _ | Interrupted _ _ st' _ =>
        written_header st' = written_header st || nonempty added
    | Crashed _ _ => True
    end.
Proof.
  induction fuel as [|fuel IH]; intros y ofs st w.
  - exists []. cbn [pages world_of]. rewrite app_nil_r, orb_false_r.
    repeat split. destruct (written_header st); cbn; auto.
  - rewrite pages_S.
    destruct (merged_written s ids y ofs st w)
      as (st1 & w1 & delta & cols & rs & Hm & Hw & Hdelta & Hh).
    rewrite Hm.
    assert (Hglue : forall st2 w2 o,
      written_header st2 = written_header st1 ->
      written w2 = written w1 ->
      (exists added,
          written (world_of o) = written w2 ++ added /\
          header_once (written_header st2) added /\
          match o with
          | Done st' _ | Interrupted _ _ st' _ =>
              written_header st' = written_header st2 || nonempty added
          | Crashed _ _ => True
          end) ->
      exists added,
        written (world_of o) = written w ++ added /\
        header_once (written_header st) added /\
        match o with
        | Done st' _ | Interrupted _ _ st' _ =>
            written_header st' = written_header st || nonempty added
        | Crashed _ _ => True
        end).
    { intros st2 w2 o Hst2 Hw2 (added & Ha & Hb & Hc).
      exists (delta ++ added). rewrite Hst2, Hh in Hb, Hc. split; [|split].
      - now rewrite Ha, Hw2, Hw, app_assoc.
      - eapply header_once_app; eauto.
      - destruct o; auto; rewrite Hc; destruct delta; cbn;
          now rewrite ?orb_true_r, ?orb_false_r. }
    assert (Hstop : forall st2 w2,
      written_header st2 = written_header st1 ->
      written w2 = written w1 ->
      exists added,
        written w2 = written w ++ added /\
        header_once (written_header st) added /\
        written_header st2 = written_header st || nonempty added).
    { intros st2 w2 Hst2 Hw2. exists delta. rewrite Hst2, Hw2. repeat split; auto.
      rewrite <- (app_nil_r delta). eapply header_once_app; eauto.
      destruct (written_header st || _); cbn; auto. }
    destruct (page_kind http_get y ofs).
    + cbv zeta. destruct (YEAR_START <=? y - 1).
      * eapply Hglue; [| |apply IH]; [reflexivity|apply written_save].
      * cbn [world_of]. apply (Hstop _ _ eq_refl (written_save _ _)).
    + eapply Hglue; [| |apply IH]; [reflexivity|apply written_save].
    + cbn [world_of].
      destruct (Hstop st1 w1 eq_refl eq_refl) as (added & Ha & Hb & _). eauto.
Qed.

Lemma years_written (s : script) (ids : list string) (fuel : nat) (y : Z)
    (st : State) (w : World) :
  exists added,
    written (world_of (years http_get s ids fuel y st w)) = written w ++ added /\
    header_once (written_header st) added /\
    match years http_get s ids fuel y st w with
    | Done st' _ | Interrupted _ _ st' _ =>
        written_header st' = written_header st || nonempty added
    | Crashed _ _ => True
    end.
Proof.
  unfold years. destruct (YEAR_START <=? y); [apply pages_written|].
  exists []. cbn [world_of]. rewrite app_nil_r, orb_false_r. repeat split.
  destruct (written_header st); cbn; auto.
Qed.

Lemma no_header_count (ls : list line) :
  no_header ls = true -> headers ls = 0%nat.
Proof.
  unfold headers. induction ls as [|l ls IH]; simpl; [reflexivity|].
  intros H. apply andb_true_iff in H. destruct H as [Hl H].
  destruct (is_header l); [discriminate|]. now apply IH.
Qed.

Lemma header_once_count (h : bool) (added : list line) :
  header_once h added -> (headers added <= 1)%nat.
Proof.
  unfold header_once. destruct h.
  - intros H. rewrite (no_header_count _ H). lia.
  - intros [->|(cols & rest & -> & _ & Hrest)]; [unfold headers; simpl; lia|].
    change (headers (Header cols :: rest)) with (S (headers rest)).
    rewrite (no_header_count _ Hrest). lia.
Qed.

(** C8, as the code has it: the lines a run hands to [to_csv] hold at most
    one header. A run that starts with [written_header] false writes the
    header once, as the first line of the first write that appends a row, and
    [written_header] is true from then on; a run that starts with
    [written_header] true (a resumed checkpoint, or the update finding an
    output file) writes rows only. Every call of [append_chunk] under
    [written_header] true keeps it true and writes no header, and what a call
    writes and returns does not depend on the content of the output file. *)
Theorem header_written_at_most_once (s : script) (ids : list string) (fuel : nat)
    (y : Z) (st : State) (w : World) :
  (exists added,
      written (world_of (years http_get s ids fuel y st w)) = written w ++ added /\
      header_once (written_header st) added /\
      (headers added <= 1)%nat /\
      match years http_get s ids fuel y st w with
      | Done st' _ | Interrupted _ _ st' _ =>
          written_header st' = written_header st || nonempty added
      | Crashed _ _ => True
      end) /\
  (exists added,
      written (world_of (main http_get read_ids CURRENT_YEAR s fuel w)) =
        written w ++ added /\
      (headers added <= 1)%nat /\
      forall st0,
        (state <- load_checkpoint s CURRENT_YEAR (reset_files s w) ;; state_of_json state)
          = Ok st0 ->
        header_once (written_header st0) added) /\
  (forall df st0 ids0 w0,
      exists r st' w',
        append_chunk s df st0 ids0 w0 = (r, st', w') /\
        ((st' = st0 /\ w' = w0) \/
         (written_header st' = true /\
          exists cols rs,
            written w' =
            written w0 ++ (if written_header st0 then [] else [Header cols]) ++ map Row rs))) /\
  (forall df st0 ids0 out out' ck es,
      fst (append_chunk s df st0 ids0 (mkWorld out ck es)) =
      fst (append_chunk s df st0 ids0 (mkWorld out' ck es)) /\
      events (snd (append_chunk s df st0 ids0 (mkWorld out ck es))) =
      events (snd (append_chunk s df st0 ids0 (mkWorld out' ck es)))).
Proof.
  split; [|split; [|split]].
  - destruct (years_written s ids fuel y st w) as (added & Ha & Hb & Hc).
    exists added. repeat split; auto. now apply header_once_count in Hb.
  - unfold main.
    assert (Hreset : written (reset_files s w) = written w).
    { unfold reset_files. now destruct (RESET s). }
    destruct (state <- load_checkpoint s CURRENT_YEAR (reset_files s w) ;; state_of_json state)
      as [st0|e].
    + match goal with
      | |- context [years http_get s ?i fuel ?y0 st0 ?w0] =>
          destruct (years_written s i fuel y0 st0 w0) as (added & Ha & Hb & _)
      end.
      exists added. rewrite Ha, Hreset. split; [reflexivity|].
      split; [now apply header_once_count in Hb|]. now intros st1 [= <-].
    + exists []. cbn [world_of]. rewrite Hreset, app_nil_r.
      split; [reflexivity|]. split; [unfold headers; simpl; lia|discriminate].
  - intros df st0 ids0 w0.
    destruct (append_chunk_effect s df st0 ids0 w0)
      as (r & st' & w' & Happ & [[-> ->]|(cols & rs & _ & -> & ->)]).
    + exists r, st0, w0. split; [exact Happ|]. now left.
    + eexists _, _, _. split; [exact Happ|]. right. split; [reflexivity|].
      exists cols, rs. rewrite written_to_csv. unfold csv_lines. cbn [columns rows].
      now destruct (written_header st0).
  - intros df st0 ids0 out out' ck es. destruct s; unfold append_chunk.
    + split; reflexivity.
    + destruct (empty _); split; reflexivity.
Qed.

(** *** Checkpoints and restarts *)

Lemma merged_year_offset (s : script) (ids : list string) (y ofs : Z) (st : State) (w : World) :
  year (fst (merged http_get s ids y ofs st w)) = year st /\
  offset (fst (merged http_get s ids y ofs st w)) = offset st.
Proof.
  destruct (merged_spec s ids y ofs st w)
    as (st1 & w1 & -> & [[-> _]|[[-> _]|(cols & rs & _ & -> & _)]]); now split.
Qed.

Lemma merged_events (s : script) (ids : list string) (y ofs : Z) (st : State) (w : World) :
  exists mid,
    events (snd (merged http_get s ids y ofs st w)) = events w ++ Fetch y ofs :: mid /\
    merge_events mid.
Proof.
  destruct (merged_spec s ids y ofs st w)
    as (st1 & w1 & -> & [[_ ->]|[[_ ->]|(cols & rs & _ & _ & ->)]]); cbn [snd].
  - exists []. split; [reflexivity|now left].
  - exists [Save st]. split; [|right; left; eauto].
    simpl. now rewrite <- app_assoc.
  - eexists [Write _; Save st1]. split; [|right; right; eauto].
    simpl. now rewrite <- !app_assoc.
Qed.

(** Every turn that does not stop on an exception ends in a save of the state
    it hands on. *)
Lemma page_step_saved (s : script) (ids : list string) (y ofs : Z) (st : State) (w : World) :
  match page_step http_get s ids y ofs st w with
  | NextPage ofs' st' w' =>
      saved_turn y ofs w st' w' /\
      year st' = year st /\ offset st' = ofs' /\ ofs' = ofs + RPP
  | YearDone y' st' w' =>
      saved_turn y ofs w st' w' /\
      year st' = y' /\ offset st' = 1 /\ y' = y - 1
  | Stop _ _ => True
  end.
Proof.
  rewrite page_step_eq.
  pose proof (merged_year_offset s ids y ofs st w) as [Hy Ho].
  destruct (merged_events s ids y ofs st w) as (mid & Hev & Hmid).
  destruct (merged http_get s ids y ofs st w) as [st1 w1]. cbn [fst snd] in *.
  assert (Hsave : forall st', saved_turn y ofs w st' (save_checkpoint st' w1)).
  { intros st'. split; [reflexivity|]. exists mid. split; [|exact Hmid].
    cbn [save_checkpoint json_dump open_w events]. rewrite Hev. now rewrite <- app_assoc. }
  destruct (page_kind http_get y ofs); [| |exact I].
  - unfold finish_year. repeat split; auto. apply Hsave.
  - repeat split; auto. apply Hsave.
Qed.

(** Inside a turn, from its fetch to the save that follows the merge, the
    world is one from which a fresh run starts at the page in progress. *)
Lemma merged_resumable (ids : list string) (y ofs : Z) (st : State) (w : World) :
  YEAR_START <= y <= YEAR_END get_more_data CURRENT_YEAR ->
  resumes_at CURRENT_YEAR w y ofs st ->
  resumes_at CURRENT_YEAR (snd (merged http_get get_more_data ids y ofs st w)) y ofs
             (fst (merged http_get get_more_data ids y ofs st w)).
Proof.
  intros Hy (Hload & Hsty & Hstofs).
  destruct (merged_spec get_more_data ids y ofs st w)
    as (st1 & w1 & -> & [[-> ->]|[[-> ->]|(cols & rs & _ & -> & ->)]]); cbn [fst snd].
  - split; [|now split]. rewrite <- Hload. now destruct w.
  - split; [|now split]. apply load_saved; [lia|reflexivity].
  - split; [|now split]. apply load_saved; [cbn [year]; lia|reflexivity].
Qed.

(** Where a fresh run starts depends on the checkpoint file only: a world
    with the same checkpoint file is resumed at the same page, with the same
    count. *)
Lemma same_checkpoint_resumable (w w' : World) (y ofs : Z) (st : State) :
  checkpoint_file w' = checkpoint_file w ->
  resumes_at CURRENT_YEAR w y ofs st ->
  exists st', resumes_at CURRENT_YEAR w' y ofs st' /\ total_saved st' = total_saved st.
Proof.
  intros Hck (Hload & Hy & Hofs). unfold resumes_at, load_checkpoint in *.
  rewrite Hck. destruct (checkpoint_file w) as [| |state].
  - cbn in Hload. injection Hload as <-. cbn in Hy, Hofs. subst y ofs.
    eexists. split; [split; [reflexivity|split; reflexivity]|reflexivity].
  - discriminate.
  - exists st. split; [split; [exact Hload|now split]|reflexivity].
Qed.

Lemma append_chunk_checkpoint (s : script) (df : DataFrame) (st : State)
    (ids : list string) (w : World) :
  checkpoint_file (snd (append_chunk s df st ids w)) = checkpoint_file w.
Proof.
  unfold append_chunk, write_chunk, to_csv. destruct s; [reflexivity|].
  destruct (empty _); reflexivity.
Qed.

(** A run of the update that is stopped between two turns leaves a world
    from which a fresh run starts at the very page it was about to fetch. *)
Lemma pages_resumable (ids : list string) (fuel : nat) :
  forall y ofs st w y1 ofs1 st1 w1,
    YEAR_START <= y <= YEAR_END get_more_data CURRENT_YEAR ->
    resumes_at CURRENT_YEAR w y ofs st ->
    pages http_get get_more_data ids fuel y ofs st w = Interrupted y1 ofs1 st1 w1 ->
    resumes_at CURRENT_YEAR w1 y1 ofs1 st1 /\
    YEAR_START <= y1 <= YEAR_END get_more_data CURRENT_YEAR.
Proof.
  induction fuel as [|fuel IH]; intros y ofs st w y1 ofs1 st1 w1 Hy Hres Hrun.
  - cbn [pages] in Hrun. injection Hrun as <- <- <- <-. now split.
  - rewrite pages_S in Hrun.
    pose proof (merged_year_offset get_more_data ids y ofs st w) as [Hyear Hoff].
    destruct (merged http_get get_more_data ids y ofs st w) as [st' w'].
    cbn [fst] in *. destruct Hres as (Hload & Hsty & Hstofs).
    destruct (page_kind http_get y ofs); [| |discriminate].
    + cbv zeta in Hrun. destruct (YEAR_START <=? y - 1) eqn:Hnext; [|discriminate].
      apply Z.leb_le in Hnext.
      eapply IH; [|split; [|split]|exact Hrun]; [lia| |reflexivity|reflexivity].
      apply load_saved; [|reflexivity]. cbn [set_offset set_year year]. lia.
    + eapply IH; [|split; [|split]|exact Hrun]; [lia| | |].
      * apply load_saved; [|reflexivity]. cbn [set_offset year]. lia.
      * cbn [set_offset year]. lia.
      * cbn [set_offset offset]. unfold RPP. lia.
Qed.

Lemma itinerary_split (s : script) (ids : list string) (f1 f2 : nat) :
  forall y ofs st w y1 ofs1 st1 w1,
    pages http_get s ids f1 y ofs st w = Interrupted y1 ofs1 st1 w1 ->
    itinerary http_get (f1 + f2) y ofs =
    itinerary http_get f1 y ofs ++ itinerary http_get f2 y1 ofs1.
Proof.
  induction f1 as [|f1 IH]; intros y ofs st w y1 ofs1 st1 w1 Hrun.
  - cbn [pages] in Hrun. injection Hrun as <- <- <- <-. reflexivity.
  - rewrite pages_S in Hrun.
    destruct (merged http_get s ids y ofs st w) as [st' w'].
    cbn [Nat.add itinerary app]. f_equal.
    destruct (page_kind http_get y ofs); [| |discriminate].
    + cbv zeta in Hrun. destruct (YEAR_START <=? y - 1); [|discriminate].
      eapply IH; eauto.
    + eapply IH; eauto.
Qed.

(** When the loop ends the state says year [YEAR_START - 1], offset 1, and
    the checkpoint file holds it. *)
Lemma loop_end_state (s : script) (ids : list string) (fuel : nat) :
  forall y ofs st w st' w',
    YEAR_START <= y ->
    pages http_get s ids fuel y ofs st w = Done st' w' ->
    year st' = YEAR_START - 1 /\ offset st' = 1 /\
    checkpoint_file w' = Holds (json_of_state st').
Proof.
  induction fuel as [|fuel IH]; intros y ofs st w st' w' Hy Hrun; [discriminate|].
  rewrite pages_S in Hrun.
  destruct (merged http_get s ids y ofs st w) as [st1 w1].
  destruct (page_kind http_get y ofs); [| |discriminate].
  - cbv zeta in Hrun. destruct (YEAR_START <=? y - 1) eqn:Hnext.
    + apply Z.leb_le in Hnext. eapply IH; [|exact Hrun]. exact Hnext.
    + apply Z.leb_gt in Hnext. injection Hrun as <- <-.
      cbn [set_offset set_year year offset]. repeat split. lia.
  - eapply IH; [|exact Hrun]. exact Hy.
Qed.

(** The first state of a run of the update is of a year the loop enters, as
    long as the current year is not before [YEAR_START]. *)
Lemma update_enters_loop (w : World) (st0 : State) :
  YEAR_START <= CURRENT_YEAR ->
  (state <- load_checkpoint get_more_data CURRENT_YEAR w ;; state_of_json state) = Ok st0 ->
  YEAR_START <= year st0 <= CURRENT_YEAR.
Proof.
  intros Hcfg Hload. unfold bind in Hload.
  destruct (load_checkpoint get_more_data CURRENT_YEAR w) as [state|] eqn:Hl; [|discriminate].
  destruct (load_checkpoint_year _ _ _ _ Hl) as (d & v & n & -> & Hv & Hn & Hrange).
  destruct (state_of_json_year d st0 Hload) as (v' & Hv' & Hn').
  assert (n = year st0) by congruence. cbn [YEAR_END] in Hrange. lia.
Qed.

(** A checkpoint of a year below [YEAR_START] sends the update back to the
    first page of the current year. *)
Lemma load_finished (st' : State) (w' : World) :
  year st' < YEAR_START ->
  checkpoint_file w' = Holds (json_of_state st') ->
  (state <- load_checkpoint get_more_data CURRENT_YEAR w' ;; state_of_json state) =
  Ok (mkState CURRENT_YEAR 1 (written_header st') (total_saved st')).
Proof.
  intros Hy Hck. unfold load_checkpoint. rewrite Hck. unfold json_of_state.
  cbn [py_get lookup String.eqb Ascii.eqb Bool.eqb bind py_gt as_int YEAR_END].
  destruct (CURRENT_YEAR <? year st').
  - destruct st' as [y o [|] t]; reflexivity.
  - cbn [py_getitem lookup String.eqb Ascii.eqb Bool.eqb bind py_lt as_int].
    replace (year st' <? YEAR_START) with true by (symmetry; apply Z.ltb_lt; lia).
    destruct st' as [y o [|] t]; reflexivity.
Qed.

Lemma finished_run_restarts (fuel : nat) (w : World) (st' : State) (w' : World) :
  YEAR_START <= CURRENT_YEAR ->
  main http_get read_ids CURRENT_YEAR get_more_data fuel w = Done st' w' ->
  year st' = YEAR_START - 1 /\
  checkpoint_file w' = Holds (json_of_state st') /\
  main http_get read_ids CURRENT_YEAR get_more_data 0 w' =
    Interrupted CURRENT_YEAR 1
      (mkState CURRENT_YEAR 1 (written_header st') (total_saved st')) w'.
Proof.
  intros Hcfg Hrun. unfold main in Hrun. cbn [reset_files RESET] in Hrun.
  destruct (state <- load_checkpoint get_more_data CURRENT_YEAR w ;; state_of_json state)
    as [st0|e] eqn:Hload; [|discriminate].
  pose proof (update_enters_loop w st0 Hcfg Hload) as Hy0.
  unfold years in Hrun.
  replace (YEAR_START <=? year st0) with true in Hrun by (symmetry; apply Z.leb_le; lia).
  destruct (loop_end_state _ _ _ _ _ _ _ _ _ (proj1 Hy0) Hrun) as (Hyear & Hoff & Hck).
  split; [exact Hyear|]. split; [exact Hck|].
  unfold main. cbn [reset_files RESET].
  rewrite (load_finished st' w') by (assumption || lia).
  unfold years. cbn [year offset].
  replace (YEAR_START <=? CURRENT_YEAR) with true by (symmetry; now apply Z.leb_le).
  reflexivity.
Qed.

(** C1, as the code has it. Every turn of the loop that does not stop on
    an exception ends in a save of the state it hands on, so that the
    checkpoint file holds the year and the offset of the next page to fetch;
    between the fetch and that save a write to the output is followed at once
    by a save. If the update script is stopped between two turns (after the
    last save of a turn, before the next fetch) a fresh run on the world it
    left starts at exactly the page the stopped run was about to fetch, which
    is the saved year and offset, and the pages fetched by the stopped run and
    then by the fresh one are those of a run that was not stopped, none of
    them twice. Stopped inside a turn while no save is under way (after the
    fetch, after [append_chunk], or after the save that follows it) the update
    starts again at the page that was in progress. Every save goes through
    the empty file that [open(..., "w")] leaves: stopped there, the next run
    of the update raises the decoder's error and fetches nothing. A run of the
    update that came to the end of its loop left the year [YEAR_START - 1] in
    the checkpoint, and the next run starts again at the first page of
    [YEAR_END]. The backfill, with [RESET = True], deletes both files when it
    starts and begins at page (2024, 1). *)
Theorem checkpoint_follows_every_page (s : script) (ids : list string)
    (y ofs : Z) (st : State) (w : World) :
  match page_step http_get s ids y ofs st w with
  | NextPage ofs' st' w' =>
      saved_turn y ofs w st' w' /\
      year st' = year st /\ offset st' = ofs' /\ ofs' = ofs + RPP
  | YearDone y' st' w' =>
      saved_turn y ofs w st' w' /\
      year st' = y' /\ offset st' = 1 /\ y' = y - 1
  | Stop _ _ => True
  end /\
  (forall f1 f2 w0 y1 ofs1 st1 w1,
      main http_get read_ids CURRENT_YEAR get_more_data f1 w0 =
        Interrupted y1 ofs1 st1 w1 ->
      main http_get read_ids CURRENT_YEAR get_more_data 0 w1 =
        Interrupted y1 ofs1 st1 w1 /\
      year st1 = y1 /\ Z.max (offset st1) 1 = ofs1 /\
      exists trail,
        requests (world_of (main http_get read_ids CURRENT_YEAR get_more_data f2 w1)) =
          requests w0 ++ trail /\
        requests (world_of (main http_get read_ids CURRENT_YEAR get_more_data (f1 + f2) w0)) =
          requests w0 ++ trail /\
        NoDup trail) /\
  (forall ids0 y0 ofs0 st0 w0,
      YEAR_START <= y0 <= YEAR_END get_more_data CURRENT_YEAR ->
      resumes_at CURRENT_YEAR w0 y0 ofs0 st0 ->
      resumes_at CURRENT_YEAR (log (Fetch y0 ofs0) w0) y0 ofs0 st0 /\
      (forall df, exists st',
          resumes_at CURRENT_YEAR
            (snd (append_chunk get_more_data df st0 ids0 (log (Fetch y0 ofs0) w0)))
            y0 ofs0 st') /\
      resumes_at CURRENT_YEAR (snd (merged http_get get_more_data ids0 y0 ofs0 st0 w0))
                 y0 ofs0 (fst (merged http_get get_more_data ids0 y0 ofs0 st0 w0))) /\
  (forall st0 w0 fuel,
      save_checkpoint st0 w0 = json_dump st0 (open_w w0) /\
      main http_get read_ids CURRENT_YEAR get_more_data fuel (open_w w0) =
        Crashed JSONDecodeError (open_w w0) /\
      requests (open_w w0) = requests w0) /\
  (forall fuel w0 st' w',
      YEAR_START <= CURRENT_YEAR ->
      main http_get read_ids CURRENT_YEAR get_more_data fuel w0 = Done st' w' ->
      year st' = YEAR_START - 1 /\
      checkpoint_file w' = Holds (json_of_state st') /\
      main http_get read_ids CURRENT_YEAR get_more_data 0 w' =
        Interrupted CURRENT_YEAR 1
          (mkState CURRENT_YEAR 1 (written_header st') (total_saved st')) w') /\
  (forall w0,
      main http_get read_ids CURRENT_YEAR get_data 0 w0 =
      Interrupted 2024 1 (mkState 2024 1 false 0) (mkWorld None NoFile (events w0))).
Proof.
  split; [apply page_step_saved|].
  split; [|split; [intros ids0 y0 ofs0 st0 w0 Hy0 Hres;
                   split; [exact Hres|
                           split; [|now apply merged_resumable]];
                   intros df;
                   destruct (same_checkpoint_resumable w0
                               (snd (append_chunk get_more_data df st0 ids0
                                       (log (Fetch y0 ofs0) w0))) y0 ofs0 st0)
                     as (st' & Hst' & _);
                   [now rewrite append_chunk_checkpoint|exact Hres|now exists st']|
                   split; [intros; repeat split|
                           split; [intros fuel w0 st' w' Hc Hr;
                                   exact (finished_run_restarts fuel w0 st' w' Hc Hr)|reflexivity]]]].
  intros f1 f2 w0 y1 ofs1 st1 w1 Hrun.
  unfold main in Hrun |- *. cbn [reset_files RESET] in Hrun |- *.
  destruct (state <- load_checkpoint get_more_data CURRENT_YEAR w0 ;; state_of_json state)
    as [st0|e] eqn:Hload0; [|discriminate].
  unfold years in Hrun |- *.
  destruct (YEAR_START <=? year st0) eqn:Hstart; [|discriminate].
  assert (Hy0 : YEAR_START <= year st0 <= YEAR_END get_more_data CURRENT_YEAR).
  { apply Z.leb_le in Hstart. split; [exact Hstart|].
    unfold bind in Hload0.
    destruct (load_checkpoint get_more_data CURRENT_YEAR w0) as [state|] eqn:Hl; [|discriminate].
    destruct (load_checkpoint_year _ _ _ _ Hl) as (d & v & n & -> & Hv & Hn & Hrange).
    destruct (state_of_json_year d st0 Hload0) as (v' & Hv' & Hn').
    assert (n = year st0) by congruence. lia. }
  destruct (pages_resumable _ _ _ _ _ _ _ _ _ _ Hy0
              (conj Hload0 (conj eq_refl eq_refl)) Hrun)
    as ((Hload1 & Hy1 & Hofs1) & Hrange1).
  rewrite Hload1, Hy1, Hofs1.
  assert (Hstart1 : (YEAR_START <=? y1) = true) by (apply Z.leb_le; lia).
  rewrite Hstart1. split; [reflexivity|]. split; [reflexivity|]. split; [reflexivity|].
  exists (itinerary http_get (f1 + f2) (year st0) (Z.max (offset st0) 1)).
  split; [|split].
  - rewrite pages_requests.
    pose proof (pages_requests get_more_data (load_existing_ids read_ids w0) f1
                  (year st0) (Z.max (offset st0) 1) st0 w0) as Hreq.
    rewrite Hrun in Hreq. cbn [world_of] in Hreq. rewrite Hreq, <- app_assoc.
    f_equal. symmetry. eapply itinerary_split. exact Hrun.
  - apply pages_requests.
  - apply itinerary_NoDup.
Qed.

(** *** Events that are not writes *)



End LoopProperties.

(** * Further properties of the two scripts *)

(** ** Checkpoint file *)

(** X1: a state written by [save_checkpoint] and read back by
    [load_checkpoint] is the same state when its year is in
    [YEAR_START .. YEAR_END]; otherwise it comes back with [year = YEAR_END]
    and [offset = 1], [written_header] and [total_saved] as saved. What the
    file held before the save does not matter. *)
Theorem save_then_load (s : script) (CURRENT_YEAR : Z) (st : State) (w : World) :
  (state <- load_checkpoint s CURRENT_YEAR (save_checkpoint st w) ;; state_of_json state) =
  Ok (if (YEAR_END s CURRENT_YEAR <? year st) || (year st <? YEAR_START)
      then mkState (YEAR_END s CURRENT_YEAR) 1 (written_header st) (total_saved st)
      else st) /\
  output_file (save_checkpoint st w) = output_file w.
Proof.
  split; [|reflexivity].
  unfold load_checkpoint, save_checkpoint, json_dump. cbn [checkpoint_file].
  unfold json_of_state. cbn [py_get lookup String.eqb Ascii.eqb Bool.eqb bind py_gt as_int].
  destruct (YEAR_END s CURRENT_YEAR <? year st); cbn [orb].
  - destruct st as [y o [|] t]; reflexivity.
  - cbn [py_getitem lookup String.eqb Ascii.eqb Bool.eqb bind py_lt as_int].
    destruct (year st <? YEAR_START); destruct st as [y o [|] t]; reflexivity.
Qed.

(** X2: on a checkpoint file that parses but is not a state,
    [load_checkpoint] raises: [AttributeError] when the value is not an
    object, [KeyError] when the object has no [year], [TypeError] when the
    year is not a number. The update then stops before its first fetch, the
    world as it was. *)
Theorem load_checkpoint_malformed (http_get : params -> nat -> response)
    (read_ids : list line -> result (list string)) (s : script)
    (CURRENT_YEAR : Z) (w : World) :
  match checkpoint_file w with
  | Holds (JObj d) =>
      match lookup "year" d with
      | None => load_checkpoint s CURRENT_YEAR w = Raise (KeyError "year")
      | Some v =>
          match as_int v with
          | Raise _ => load_checkpoint s CURRENT_YEAR w = Raise TypeError
          | Ok _ => exists d', load_checkpoint s CURRENT_YEAR w = Ok (JObj d')
          end
      end
  | Holds _ => load_checkpoint s CURRENT_YEAR w = Raise AttributeError
  | NoFile | Garbled => True
  end /\
  (forall fuel e,
      load_checkpoint get_more_data CURRENT_YEAR w = Raise e ->
      main http_get read_ids CURRENT_YEAR get_more_data fuel w = Crashed e w).
Proof.
  split.
  - unfold load_checkpoint.
    destruct (checkpoint_file w) as [| |[| | | | |d]]; try exact I; try reflexivity.
    cbn [py_get bind]. unfold py_gt. destruct (lookup "year" d) as [v|] eqn:Hv.
    + destruct (as_int v) as [n|e] eqn:Hn; cbn [bind].
      * destruct (YEAR_END s CURRENT_YEAR <? n); [eexists; reflexivity|].
        cbn [py_getitem]. rewrite Hv. cbn [bind]. unfold py_lt. rewrite Hn. cbn [bind].
        destruct (n <? YEAR_START); eexists; reflexivity.
      * destruct v; try discriminate; injection Hn as <-; reflexivity.
    + cbn [as_int bind]. rewrite Z.ltb_irrefl. cbn [py_getitem]. now rewrite Hv.
  - intros fuel e Hload. unfold main. cbn [reset_files RESET]. now rewrite Hload.
Qed.

(** X3: a checkpoint whose year lies in [YEAR_START .. YEAR_END] is
    returned exactly as the file holds it, whatever its other keys are. *)
Theorem load_checkpoint_keeps_year_in_range (s : script) (CURRENT_YEAR : Z) (w : World)
    (d : dict) (v : json) (n : Z)
    (Hfile : checkpoint_file w = Holds (JObj d))
    (Hyear : lookup "year" d = Some v)
    (Hint : as_int v = Ok n)
    (Hin : YEAR_START <= n <= YEAR_END s CURRENT_YEAR) :
  load_checkpoint s CURRENT_YEAR w = Ok (JObj d).
Proof.
  unfold load_checkpoint. rewrite Hfile. cbn [py_get bind]. rewrite Hyear.
  unfold py_gt. rewrite Hint. cbn [bind].
  replace (YEAR_END s CURRENT_YEAR <? n) with false by (symmetry; apply Z.ltb_ge; lia).
  cbn [py_getitem]. rewrite Hyear. cbn [bind]. unfold py_lt. rewrite Hint. cbn [bind].
  replace (n <? YEAR_START) with false by (symmetry; apply Z.ltb_ge; lia).
  reflexivity.
Qed.

(** ** Row merger *)

Lemma drop_known_nothing (df : DataFrame) : drop_known df [] = df.
Proof.
  unfold drop_known. rewrite filter_keeps_all.
  - now destruct df.
  - intros r _. unfold isin. now destruct (cell_of "id" (columns df) r) as [[]|].
Qed.

(** X11: when the output file is missing, or pandas cannot read its [id]
    column, [load_existing_ids] gives the empty set, and with the empty set
    the update's [append_chunk] writes a frame that is not empty exactly as
    the backfill's does: every row, filtered by nothing. *)
Theorem unreadable_ids_disable_filter (read_ids : list line -> result (list string))
    (w : World) (df : DataFrame) (st : State) (w' : World)
    (Hread : output_file w = None \/
             exists ls e, output_file w = Some ls /\ read_ids ls = Raise e)
    (Hdf : empty df = false) :
  load_existing_ids read_ids w = [] /\
  append_chunk get_more_data df st (load_existing_ids read_ids w) w' =
    (Some (len df), snd (fst (append_chunk get_data df st [] w')),
     snd (append_chunk get_data df st [] w')) /\
  content (snd (append_chunk get_more_data df st (load_existing_ids read_ids w) w')) =
    content w' ++ (if written_header st then [] else [Header (columns df)])
               ++ map Row (rows df).
Proof.
  assert (Hids : load_existing_ids read_ids w = []).
  { unfold load_existing_ids. destruct Hread as [->|(ls & e & -> & ->)]; reflexivity. }
  rewrite Hids. split; [reflexivity|].
  assert (Happ : append_chunk get_more_data df st [] w' =
                 (Some (len df), snd (fst (append_chunk get_data df st [] w')),
                  snd (append_chunk get_data df st [] w'))).
  { unfold append_chunk.
    replace (if mem "id" (columns df) then drop_known df [] else df) with df
      by (destruct (mem "id" (columns df)); [now rewrite drop_known_nothing|reflexivity]).
    rewrite Hdf. reflexivity. }
  split; [exact Happ|].
  rewrite Happ. cbn [snd append_chunk write_chunk]. rewrite content_to_csv.
  unfold csv_lines. now destruct (written_header st).
Qed.

(** X12: [existing_ids] is not updated by what a run appends. A batch
    with a column and a row, none of whose identifiers is in [existing_ids],
    is appended a second time when [append_chunk] gets it again in the same
    run: its rows are in the output twice and [total_saved] counts them
    twice. *)
Theorem same_batch_is_appended_twice (df : DataFrame) (st : State)
    (existing_ids : list string) (w : World)
    (Hcols : columns df <> [])
    (Hrows : rows df <> [])
    (Hnew : forall r, In r (rows df) ->
              isin (cell_of "id" (columns df) r) existing_ids = false) :
  let st1 := snd (fst (append_chunk get_more_data df st existing_ids w)) in
  let w1 := snd (append_chunk get_more_data df st existing_ids w) in
  let st2 := snd (fst (append_chunk get_more_data df st1 existing_ids w1)) in
  let w2 := snd (append_chunk get_more_data df st1 existing_ids w1) in
  fst (fst (append_chunk get_more_data df st1 existing_ids w1)) = Some (len df) /\
  total_saved st2 = total_saved st + 2 * len df /\
  content w2 =
    content w ++ (if written_header st then [] else [Header (columns df)])
              ++ map Row (rows df) ++ map Row (rows df).
Proof.
  assert (Hkeep : filter (fun r => negb (isin (cell_of "id" (columns df) r) existing_ids))
                         (rows df) = rows df).
  { apply filter_keeps_all. intros r Hr. now rewrite Hnew. }
  assert (Hdf : mkDataFrame (columns df) (rows df) = df) by now destruct df.
  assert (Hcall : forall st0 w0,
    append_chunk get_more_data df st0 existing_ids w0 =
    (Some (len df),
     mkState (year st0) (offset st0) true (total_saved st0 + len df),
     to_csv df (negb (written_header st0)) w0)).
  { intros st0 w0. rewrite (append_chunk_keep df st0 existing_ids w0 Hcols). cbv zeta.
    rewrite Hkeep, Hdf. unfold len. destruct (rows df); [contradiction|reflexivity]. }
  intros st1 w1 st2 w2. subst st2 w2 st1 w1. rewrite !Hcall. cbn [fst snd].
  rewrite ?Hcall. cbn [fst snd total_saved written_header negb].
  split; [reflexivity|]. split; [lia|].
  rewrite !content_to_csv. unfold csv_lines. cbn [app].
  destruct (written_header st); cbn [negb app]; now rewrite <- !app_assoc.
Qed.

(** ** Driving loop *)

Lemma data_rows_app (a b : list line) : data_rows (a ++ b) = data_rows a + data_rows b.
Proof. unfold data_rows. rewrite filter_app, length_app. lia. Qed.

Lemma data_rows_csv (cols : list string) (rs : list (list cell)) (header : bool) :
  data_rows (csv_lines (mkDataFrame cols rs) header) = Z.of_nat (List.length rs).
Proof.
  unfold csv_lines. rewrite data_rows_app. cbn [columns rows].
  assert (H : data_rows (map Row rs) = Z.of_nat (List.length rs)).
  { unfold data_rows. f_equal. induction rs; simpl; auto. }
  rewrite H. destruct header; reflexivity.
Qed.

Section RunProperties.

Variable http_get : params -> nat -> response.
Variable read_ids : list line -> result (list string).
Variable CURRENT_YEAR : Z.

(** What a turn adds to the output file is what it hands to [to_csv], and
    [total_saved] grows by the rows among it. *)
Lemma merged_ledger (s : script) (ids : list string) (y ofs : Z) (st : State) (w : World) :
  exists st1 w1 delta,
    merged http_get s ids y ofs st w = (st1, w1) /\
    content w1 = content w ++ delta /\
    written w1 = written w ++ delta /\
    total_saved st1 = total_saved st + data_rows delta.
Proof.
  destruct (merged_spec http_get s ids y ofs st w)
    as (st1 & w1 & Hm & [[-> ->]|[[-> ->]|(cols & rs & _ & -> & ->)]]).
  - exists st, (log (Fetch y ofs) w), []. split; [exact Hm|].
    rewrite written_log_fetch, !app_nil_r. repeat split. unfold data_rows. simpl. lia.
  - exists st, (save_checkpoint st (log (Fetch y ofs) w)), []. split; [exact Hm|].
    rewrite written_save, written_log_fetch, !app_nil_r. repeat split.
    unfold data_rows. simpl. lia.
  - eexists _, _, (csv_lines (mkDataFrame cols rs) (negb (written_header st))).
    split; [exact Hm|].
    rewrite written_save, written_to_csv, written_log_fetch, data_rows_csv.
    repeat split.
Qed.

Lemma pages_ledger (s : script) (ids : list string) (fuel : nat) :
  forall y ofs st w,
  exists added,
    content (world_of (pages http_get s ids fuel y ofs st w)) = content w ++ added /\
    written (world_of (pages http_get s ids fuel y ofs st w)) = written w ++ added /\
    match pages http_get s ids fuel y ofs st w with
    | Done st' _ | Interrupted _ _ st' _ =>
        total_saved st' = total_saved st + data_rows added
    | Crashed _ _ => True
    end.
Proof.
  induction fuel as [|fuel IH]; intros y ofs st w.
  - exists []. cbn [pages world_of]. rewrite !app_nil_r. repeat split.
    unfold data_rows. simpl. lia.
  - rewrite pages_S.
    destruct (merged_ledger s ids y ofs st w) as (st1 & w1 & delta & Hm & Hc & Hw & Ht).
    rewrite Hm.
    assert (Hgo : forall y' ofs' st2,
      total_saved st2 = total_saved st1 ->
      exists added,
        content (world_of (pages http_get s ids fuel y' ofs' st2 (save_checkpoint st2 w1)))
          = content w ++ added /\
        written (world_of (pages http_get s ids fuel y' ofs' st2 (save_checkpoint st2 w1)))
          = written w ++ added /\
        match pages http_get s ids fuel y' ofs' st2 (save_checkpoint st2 w1) with
        | Done st' _ | Interrupted _ _ st' _ =>
            total_saved st' = total_saved st + data_rows added
        | Crashed _ _ => True
        end).
    { intros y' ofs' st2 Hst2.
      destruct (IH y' ofs' st2 (save_checkpoint st2 w1)) as (added & Ha & Hb & Hd).
      exists (delta ++ added). rewrite Ha, Hb, written_save, Hw.
      change (content (save_checkpoint st2 w1)) with (content w1). rewrite Hc.
      rewrite <- !app_assoc. split; [reflexivity|]. split; [reflexivity|].
      destruct (pages http_get s ids fuel y' ofs' st2 (save_checkpoint st2 w1));
        auto; rewrite data_rows_app; lia. }
    destruct (page_kind http_get y ofs).
    + cbv zeta. destruct (YEAR_START <=? y - 1).
      * apply Hgo. reflexivity.
      * exists delta. cbn [world_of]. rewrite written_save.
        change (content (save_checkpoint (set_offset 1 (set_year (y - 1) st1)) w1))
          with (content w1). repeat split; auto.
    + apply Hgo. reflexivity.
    + exists delta. cbn [world_of]. repeat split; auto.
Qed.

(** X4: the update only appends to the output file. After a run of any
    length the lines the file had are still its first lines, what follows is
    exactly what the run handed to [to_csv], and [total_saved] has grown from
    the loaded value by the number of rows among those lines, so it never
    goes down. *)
Theorem update_only_appends (fuel : nat) (w : World) :
  exists added,
    content (world_of (main http_get read_ids CURRENT_YEAR get_more_data fuel w)) =
      content w ++ added /\
    written (world_of (main http_get read_ids CURRENT_YEAR get_more_data fuel w)) =
      written w ++ added /\
    forall st0,
      (state <- load_checkpoint get_more_data CURRENT_YEAR w ;; state_of_json state) = Ok st0 ->
      match main http_get read_ids CURRENT_YEAR get_more_data fuel w with
      | Done st' _ | Interrupted _ _ st' _ =>
          total_saved st' = total_saved st0 + data_rows added /\
          total_saved st0 <= total_saved st'
      | Crashed _ _ => True
      end.
Proof.
  unfold main. cbn [reset_files RESET].
  destruct (state <- load_checkpoint get_more_data CURRENT_YEAR w ;; state_of_json state)
    as [st0|e].
  - unfold years. destruct (YEAR_START <=? year st0).
    + destruct (pages_ledger get_more_data (load_existing_ids read_ids w) fuel
                  (year st0) (Z.max (offset st0) 1) st0 w) as (added & Ha & Hb & Hc).
      exists added. split; [exact Ha|]. split; [exact Hb|].
      intros st1 [= <-].
      destruct (pages http_get get_more_data _ fuel _ _ st0 w); auto;
        split; auto; unfold data_rows in *; lia.
    + exists []. cbn [world_of]. rewrite !app_nil_r.
      split; [reflexivity|]. split; [reflexivity|].
      intros st1 [= <-]. unfold data_rows. simpl. lia.
  - exists []. cbn [world_of]. rewrite !app_nil_r.
    split; [reflexivity|]. split; [reflexivity|]. discriminate.
Qed.

(** X5: the backfill writes its output file from nothing. Whatever files
    it finds, after a run of any length the output file holds exactly the
    lines the run handed to [to_csv]: nothing, or one header followed by rows
    only; and [total_saved] is the number of rows in the file. *)
Theorem backfill_output_is_what_it_wrote (fuel : nat) (w : World) :
  exists added,
    content (world_of (main http_get read_ids CURRENT_YEAR get_data fuel w)) = added /\
    written (world_of (main http_get read_ids CURRENT_YEAR get_data fuel w)) =
      written w ++ added /\
    header_once false added /\
    match main http_get read_ids CURRENT_YEAR get_data fuel w with
    | Done st' _ | Interrupted _ _ st' _ => total_saved st' = data_rows added
    | Crashed _ _ => True
    end.
Proof.
  change (main http_get read_ids CURRENT_YEAR get_data fuel w)
    with (pages http_get get_data [] fuel 2024 1 (mkState 2024 1 false 0)
                (mkWorld None NoFile (events w))).
  destruct (pages_ledger get_data [] fuel 2024 1 (mkState 2024 1 false 0)
              (mkWorld None NoFile (events w))) as (added & Ha & Hb & Hc).
  destruct (pages_written http_get get_data [] fuel 2024 1 (mkState 2024 1 false 0)
              (mkWorld None NoFile (events w))) as (added' & Hb' & Hh & _).
  assert (added' = added) by (rewrite Hb in Hb'; now apply app_inv_head in Hb').
  subst added'. exists added. split; [exact Ha|]. split; [exact Hb|]. split; [exact Hh|].
  destruct (pages http_get get_data [] fuel 2024 1 _ _); auto.
Qed.

(** *** How a run ends *)

Lemma pages_done (s : script) (ids : list string) (fuel : nat) :
  forall y ofs st w st' w',
    YEAR_START <= y ->
    pages http_get s ids fuel y ofs st w = Done st' w' ->
    year st' = YEAR_START - 1 /\ offset st' = 1 /\
    checkpoint_file w' = Holds (json_of_state st').
Proof.
  induction fuel as [|fuel IH]; intros y ofs st w st' w' Hy Hrun; [discriminate|].
  rewrite pages_S in Hrun.
  destruct (merged http_get s ids y ofs st w) as [st1 w1].
  destruct (page_kind http_get y ofs); [| |discriminate].
  - cbv zeta in Hrun. destruct (YEAR_START <=? y - 1) eqn:Hnext.
    + apply Z.leb_le in Hnext. eapply IH; [|exact Hrun]. exact Hnext.
    + apply Z.leb_gt in Hnext. injection Hrun as <- <-.
      cbn [set_offset set_year year offset]. repeat split. lia.
  - eapply IH; [|exact Hrun]. exact Hy.
Qed.

(** X7: a run of the update that comes to the end of its loop leaves the
    year [YEAR_START - 1] and the offset 1 in the checkpoint file. The next
    run therefore does not find it finished: it starts again at the first
    page of [YEAR_END], with [written_header] and [total_saved] as they
    were. *)
Theorem finished_update_starts_over (fuel : nat) (w : World) (st' : State) (w' : World)
    (Hcfg : YEAR_START <= CURRENT_YEAR)
    (Hrun : main http_get read_ids CURRENT_YEAR get_more_data fuel w = Done st' w') :
  year st' = YEAR_START - 1 /\ offset st' = 1 /\
  checkpoint_file w' = Holds (json_of_state st') /\
  main http_get read_ids CURRENT_YEAR get_more_data 0 w' =
    Interrupted CURRENT_YEAR 1
      (mkState CURRENT_YEAR 1 (written_header st') (total_saved st')) w'.
Proof.
  unfold main in Hrun. cbn [reset_files RESET] in Hrun.
  destruct (state <- load_checkpoint get_more_data CURRENT_YEAR w ;; state_of_json state)
    as [st0|e] eqn:Hload; [|discriminate].
  assert (Hy0 : YEAR_START <= year st0).
  { unfold bind in Hload.
    destruct (load_checkpoint get_more_data CURRENT_YEAR w) as [state|] eqn:Hl; [|discriminate].
    destruct (load_checkpoint_year _ _ _ _ Hl) as (d & v & n & -> & Hv & Hn & Hrange).
    destruct (state_of_json_year d st0 Hload) as (v' & Hv' & Hn').
    assert (n = year st0) by congruence. cbn [YEAR_END] in Hrange. lia. }
  unfold years in Hrun.
  replace (YEAR_START <=? year st0) with true in Hrun by (symmetry; now apply Z.leb_le).
  destruct (pages_done _ _ _ _ _ _ _ _ _ Hy0 Hrun) as (Hyear & Hoff & Hck).
  split; [exact Hyear|]. split; [exact Hoff|]. split; [exact Hck|].
  unfold main. cbn [reset_files RESET].
  assert (Hload' : (state <- load_checkpoint get_more_data CURRENT_YEAR w' ;; state_of_json state)
                   = Ok (mkState CURRENT_YEAR 1 (written_header st') (total_saved st'))).
  { unfold load_checkpoint. rewrite Hck. unfold json_of_state.
    cbn [py_get lookup String.eqb Ascii.eqb Bool.eqb bind py_gt as_int YEAR_END].
    destruct (CURRENT_YEAR <? year st').
    - destruct st' as [y o [|] t]; reflexivity.
    - cbn [py_getitem lookup String.eqb Ascii.eqb Bool.eqb bind py_lt as_int].
      replace (year st' <? YEAR_START) with true by (symmetry; apply Z.ltb_lt; lia).
      destruct st' as [y o [|] t]; reflexivity. }
  rewrite Hload'. unfold years. cbn [year offset].
  replace (YEAR_START <=? CURRENT_YEAR) with true by (symmetry; now apply Z.leb_le).
  reflexivity.
Qed.

(** *** Pages without an answer *)

(** X8: when all [MAX_RETRIES] requests of a page fail, [fetch_page]
    hands the loop an empty page after sleeps of 2, 4 and 6 seconds, and the
    loop takes it for the end of the year: it writes nothing, sets
    [year = y - 1] and [offset = 1], saves, and goes on with the year before.
    The pages of year [y] from that offset on are not asked for again in the
    run. *)
Theorem failed_page_closes_year (s : script) (ids : list string) (y ofs : Z)
    (st : State) (w : World)
    (Hfail : forall attempt, (1 <= attempt <= MAX_RETRIES)%nat ->
               http_get (request_params y ofs) attempt = Failed) :
  let st' := set_offset 1 (set_year (y - 1) st) in
  fetch_page http_get y ofs = Ok (mkFetched (JArr []) 3 [2; 4; 6]) /\
  page_step http_get s ids y ofs st w =
    YearDone (y - 1) st' (save_checkpoint st' (log (Fetch y ofs) w)) /\
  output_file (save_checkpoint st' (log (Fetch y ofs) w)) = output_file w /\
  forall fuel,
    pages http_get s ids (S fuel) y ofs st w =
    years http_get s ids fuel (y - 1) st' (save_checkpoint st' (log (Fetch y ofs) w)) /\
    forall y' ofs', In (y', ofs') (itinerary http_get (S fuel) y ofs) ->
      (y', ofs') = (y, ofs) \/ y' < y.
Proof.
  intros st'.
  assert (Hf : fetch_page http_get y ofs = Ok (mkFetched (JArr []) 3 [2; 4; 6])).
  { unfold fetch_page. cbn [MAX_RETRIES seq retry]. unfold attempt_page.
    rewrite !Hfail by (unfold MAX_RETRIES; lia). reflexivity. }
  assert (Hstep : page_step http_get s ids y ofs st w =
                  YearDone (y - 1) st' (save_checkpoint st' (log (Fetch y ofs) w))).
  { unfold page_step. rewrite Hf. reflexivity. }
  split; [exact Hf|]. split; [exact Hstep|]. split; [reflexivity|].
  intros fuel. split.
  - cbn [pages]. rewrite Hstep. reflexivity.
  - intros y' ofs' Hin. cbn [itinerary] in Hin.
    destruct Hin as [Hin|Hin]; [now left|right].
    unfold page_kind in Hin. rewrite Hf in Hin. cbn [awards truthy negb] in Hin.
    destruct (YEAR_START <=? y - 1); [|contradiction].
    apply itinerary_order in Hin. lia.
Qed.

(** *** The pages a run asks for *)

Lemma itinerary_bounds (fuel : nat) :
  forall y ofs y' ofs',
    YEAR_START <= y -> 1 <= ofs ->
    In (y', ofs') (itinerary http_get fuel y ofs) ->
    YEAR_START <= y' <= y /\ 1 <= ofs' /\
    ((y' = y /\ exists k : nat, ofs' = ofs + Z.of_nat k * RPP) \/
     (y' < y /\ exists k : nat, ofs' = 1 + Z.of_nat k * RPP)).
Proof.
  induction fuel as [|fuel IH]; intros y ofs y' ofs' Hy Hofs Hin; [contradiction|].
  cbn [itinerary] in Hin. destruct Hin as [[= <- <-]|Hin].
  - split; [lia|]. split; [lia|]. left. split; [reflexivity|]. exists 0%nat. simpl. lia.
  - destruct (page_kind http_get y ofs); [| |contradiction].
    + destruct (YEAR_START <=? y - 1) eqn:Hnext; [|contradiction].
      apply Z.leb_le in Hnext.
      destruct (IH _ _ _ _ Hnext (Z.le_refl 1) Hin) as (Hr & Ho & [[-> Hk]|[Hlt Hk]]).
      * split; [lia|]. split; [exact Ho|]. right. split; [lia|exact Hk].
      * split; [lia|]. split; [exact Ho|]. right. split; [lia|exact Hk].
    + assert (Hofs' : 1 <= ofs + RPP) by (unfold RPP; lia).
      destruct (IH _ _ _ _ Hy Hofs' Hin) as (Hr & Ho & [[-> [k Hk]]|[Hlt Hk]]).
      * split; [lia|]. split; [exact Ho|]. left. split; [reflexivity|].
        exists (S k). rewrite Hk. lia.
      * split; [lia|]. split; [exact Ho|]. right. split; [lia|exact Hk].
Qed.

(** A checkpoint that [save_checkpoint] wrote is read back as the state it
    was written from, but for the clamp of its year. *)
Lemma load_written (s : script) (w : World) (st : State) :
  checkpoint_file w = Holds (json_of_state st) ->
  exists st0,
    (state <- load_checkpoint s CURRENT_YEAR w ;; state_of_json state) = Ok st0.
Proof.
  intros Hck. unfold load_checkpoint. rewrite Hck. unfold json_of_state.
  cbn [py_get lookup String.eqb Ascii.eqb Bool.eqb bind py_gt as_int].
  destruct (YEAR_END s CURRENT_YEAR <? year st).
  - destruct st as [y o [|] t]; eexists; reflexivity.
  - cbn [py_getitem lookup String.eqb Ascii.eqb Bool.eqb bind py_lt as_int].
    destruct (year st <? YEAR_START); destruct st as [y o [|] t]; eexists; reflexivity.
Qed.

(** X9: a run of the backfill, and a run of the update that finds no
    checkpoint file or one that [save_checkpoint] wrote, loads its state
    without an exception, and every page it asks for is of a year in
    [YEAR_START .. YEAR_END] and has an offset of at least 1; within the first
    year the offsets go up from the starting offset in steps of [RPP], in
    every later year from 1; and no page is asked for twice in one run. *)
Theorem requests_stay_in_range (s : script) (fuel : nat) (w : World)
    (Hfile : s = get_data \/ checkpoint_file w = NoFile \/
             exists st, checkpoint_file w = Holds (json_of_state st)) :
  (exists st0,
      (state <- load_checkpoint s CURRENT_YEAR (reset_files s w) ;; state_of_json state) =
      Ok st0) /\
  exists trail,
    requests (world_of (main http_get read_ids CURRENT_YEAR s fuel w)) =
      requests w ++ trail /\
    NoDup trail /\
    forall y ofs, In (y, ofs) trail ->
      YEAR_START <= y <= YEAR_END s CURRENT_YEAR /\ 1 <= ofs /\
      forall y0 ofs0, hd_error trail = Some (y0, ofs0) ->
        (y = y0 /\ exists k : nat, ofs = ofs0 + Z.of_nat k * RPP) \/
        (y < y0 /\ exists k : nat, ofs = 1 + Z.of_nat k * RPP).
Proof.
  assert (Hok : exists st0,
             (state <- load_checkpoint s CURRENT_YEAR (reset_files s w) ;;
              state_of_json state) = Ok st0).
  { destruct Hfile as [->|[Hno|[st Hst]]].
    - eexists. reflexivity.
    - destruct s; [eexists; reflexivity|].
      unfold load_checkpoint. cbn [reset_files RESET]. rewrite Hno.
      eexists. reflexivity.
    - destruct s; [eexists; reflexivity|].
      cbn [reset_files RESET]. now apply load_written with (st := st). }
  split; [exact Hok|]. clear Hok.
  unfold main.
  assert (Hreq : requests (reset_files s w) = requests w).
  { unfold reset_files. now destruct (RESET s). }
  destruct (state <- load_checkpoint s CURRENT_YEAR (reset_files s w) ;; state_of_json state)
    as [st0|e] eqn:Hload.
  - unfold years. destruct (YEAR_START <=? year st0) eqn:Hstart.
    + exists (itinerary http_get fuel (year st0) (Z.max (offset st0) 1)).
      rewrite pages_requests, Hreq. split; [reflexivity|].
      split; [apply itinerary_NoDup|].
      intros y ofs Hin. apply Z.leb_le in Hstart.
      assert (Hle : year st0 <= YEAR_END s CURRENT_YEAR).
      { unfold bind in Hload.
        destruct (load_checkpoint s CURRENT_YEAR (reset_files s w)) as [state|] eqn:Hl;
          [|discriminate].
        destruct (load_checkpoint_year _ _ _ _ Hl) as (d & v & n & -> & Hv & Hn & Hrange).
        destruct (state_of_json_year d st0 Hload) as (v' & Hv' & Hn').
        assert (n = year st0) by congruence. lia. }
      destruct (itinerary_bounds fuel _ _ _ _ Hstart (Z.le_max_r _ _) Hin)
        as (Hr & Ho & Hk).
      split; [lia|]. split; [exact Ho|].
      intros y0 ofs0 Hhd. destruct fuel; [contradiction|].
      cbn [itinerary hd_error] in Hhd. injection Hhd as <- <-. exact Hk.
    + exists []. cbn [world_of]. rewrite Hreq, app_nil_r.
      split; [reflexivity|]. split; [constructor|contradiction].
  - exists []. cbn [world_of]. rewrite Hreq, app_nil_r.
    split; [reflexivity|]. split; [constructor|contradiction].
Qed.

(** *** Runs that end and runs that do not *)

Section Finite.

Hypothesis Hfinite :
  forall y ofs, exists k : nat,
    page_kind http_get y (ofs + Z.of_nat k * RPP) = Exhausted.

Lemma year_ends (s : script) (ids : list string) (y : Z) :
  (YEAR_START <= y - 1 ->
   forall st w, exists fuel, ended (pages http_get s ids fuel (y - 1) 1 st w)) ->
  forall (k : nat) ofs st w,
    page_kind http_get y (ofs + Z.of_nat k * RPP) = Exhausted ->
    exists fuel, ended (pages http_get s ids fuel y ofs st w).
Proof.
  intros Hnext. induction k as [|k IH]; intros ofs st w Hk;
    destruct (page_kind http_get y ofs) eqn:Hkind.
  1, 4: destruct (merged http_get s ids y ofs st w) as [st1 w1] eqn:Hm;
    destruct (YEAR_START <=? y - 1) eqn:Hy;
    [ apply Z.leb_le in Hy;
      destruct (Hnext Hy (set_offset 1 (set_year (y - 1) st1))
                  (save_checkpoint (set_offset 1 (set_year (y - 1) st1)) w1)) as [fuel Hend];
      exists (S fuel); rewrite pages_S, Hm, Hkind; cbv zeta;
      apply Z.leb_le in Hy; rewrite Hy; exact Hend
    | exists 1%nat; rewrite pages_S, Hm, Hkind; cbv zeta; rewrite Hy; exact I ].
  - replace (ofs + Z.of_nat 0 * RPP) with ofs in Hk by (simpl; lia). congruence.
  - exists 1%nat. rewrite pages_S, Hkind.
    destruct (merged http_get s ids y ofs st w). exact I.
  - destruct (merged http_get s ids y ofs st w) as [st1 w1] eqn:Hm.
    destruct (IH (ofs + RPP) (set_offset (ofs + RPP) st1)
                (save_checkpoint (set_offset (ofs + RPP) st1) w1)) as [fuel Hend].
    { rewrite <- Hk. f_equal. lia. }
    exists (S fuel). rewrite pages_S, Hm, Hkind. exact Hend.
  - exists 1%nat. rewrite pages_S, Hkind.
    destruct (merged http_get s ids y ofs st w). exact I.
Qed.

Lemma years_end (s : script) (ids : list string) (n : nat) :
  forall y ofs st w,
    y < YEAR_START + Z.of_nat n ->
    exists fuel, ended (pages http_get s ids fuel y ofs st w).
Proof.
  induction n as [|n IH]; intros y ofs st w Hy;
    destruct (Hfinite y ofs) as [k Hk]; apply (year_ends s ids y) with (k := k); auto.
  - intros Hge. lia.
  - intros _ st' w'. apply IH. lia.
Qed.

(** X6: when in every year, from every offset, the pages in steps of
    [RPP] reach one that is empty or short, a run of either script comes to
    an end: some number of pages is enough for [main] to leave its loop (or to
    stop on an exception), from any checkpoint and any output file. *)
Theorem run_ends (s : script) (w : World) :
  exists fuel, ended (main http_get read_ids CURRENT_YEAR s fuel w).
Proof.
  unfold main.
  destruct (state <- load_checkpoint s CURRENT_YEAR (reset_files s w) ;; state_of_json state)
    as [st0|e].
  - unfold years. destruct (YEAR_START <=? year st0) eqn:Hy.
    + apply (years_end s _ (Z.to_nat (year st0 - YEAR_START + 1))).
      apply Z.leb_le in Hy. lia.
    + exists 0%nat. exact I.
  - exists 0%nat. exact I.
Qed.

End Finite.

(** X10: the loop has no bound of its own on the pages of a year. While
    the remote source answers every offset of year [y] with at least [RPP]
    records, the run stays in year [y]: after any number of pages it is about
    to fetch the next offset of that year. *)
Theorem full_pages_never_end (s : script) (ids : list string) (y : Z)
    (Hfull : forall ofs, page_kind http_get y ofs = Full) :
  forall (fuel : nat) ofs st w,
  exists st' w',
    pages http_get s ids fuel y ofs st w =
    Interrupted y (ofs + Z.of_nat fuel * RPP) st' w'.
Proof.
  induction fuel as [|fuel IH]; intros ofs st w.
  - exists st, w. cbn [pages]. f_equal. simpl. lia.
  - rewrite pages_S, Hfull.
    destruct (merged http_get s ids y ofs st w) as [st1 w1].
    destruct (IH (ofs + RPP) (set_offset (ofs + RPP) st1)
                (save_checkpoint (set_offset (ofs + RPP) st1) w1)) as (st' & w' & Hrun).
    exists st', w'. rewrite Hrun. f_equal. lia.
Qed.

End RunProperties.

(** ** A second run of the update *)





Section TwoRuns.

Variable http_get : params -> nat -> response.
Variable read_ids : list line -> result (list string).
Variable CURRENT_YEAR : Z.
Variable keys : list string.










End TwoRuns.

(** * Instances *)

Ltac by_running := vm_compute; repeat split; reflexivity.

(** With the remote source down, a page takes three requests, sleeps of 2, 4
    and 6 seconds, and comes back empty; a body without [response] is an empty
    page. *)
Lemma fetch_page_absorbs_failures_witness :
  fetch_page dead_remote 2024 1 = Ok (mkFetched (JArr []) 3 [2; 4; 6]) /\
  fetch_page flaky_remote 2024 1 = Ok (mkFetched (JArr []) 3 [2; 4]) /\
  attempt_page flaky_remote (request_params 2024 1) 3 = Ok (JArr []).
Proof.
  split; [reflexivity|split; [reflexivity|]].
  exact (proj2 (fetch_page_absorbs_failures flaky_remote 2024 1) 3%nat [] eq_refl).
Defined.

(** A checkpoint of the year 2030, read by the backfill, and a checkpoint of
    the year 2022, read by the update in 2025. *)
Lemma load_checkpoint_clamps_year_witness :
  let d := [ ("year", JInt 2030); ("offset", JInt 51);
             ("written_header", JBool true); ("total_saved", JInt 75) ] in
  let w := mkWorld None (Holds (JObj d)) [] in
  let w' := mkWorld None (Holds (json_of_state (mkState 2022 51 true 75))) [] in
  load_checkpoint get_data 2025 w =
    Ok (JObj [ ("year", JInt 2024); ("offset", JInt 1);
               ("written_header", JBool true); ("total_saved", JInt 75) ]) /\
  (exists d',
    load_checkpoint get_data 2025 w = Ok (JObj d') /\
    lookup "year" d' = Some (JInt 2024) /\
    lookup "offset" d' = Some (JInt 1) /\
    forall k, k <> "year" -> k <> "offset" -> lookup k d' = lookup k d) /\
  load_checkpoint get_more_data 2025 w' = Ok (json_of_state (mkState 2022 51 true 75)) /\
  year_in_range get_more_data 2025 (json_of_state (mkState 2022 51 true 75)).
Proof.
  intros d w w'. split; [reflexivity|]. split; [|split; [reflexivity|]].
  - refine (proj1 (load_checkpoint_clamps_year get_data 2025) w d (JInt 2030) 2030
                  eq_refl eq_refl eq_refl _).
    left. simpl. lia.
  - refine (proj1 (proj2 (load_checkpoint_clamps_year get_more_data 2025) _ w' _ eq_refl)).
    right. unfold YEAR_START. lia.
Defined.

(** An unparseable checkpoint stops the update before its loop. *)
Lemma load_checkpoint_raises_on_garbled_file :
  load_checkpoint get_more_data 2025 (mkWorld None Garbled []) = Raise JSONDecodeError /\
  main plain_remote no_read_ids 2025 get_more_data 10 (mkWorld None Garbled []) =
    Crashed JSONDecodeError (mkWorld None Garbled []).
Proof. split; reflexivity. Qed.

(** The dedup example: ["A123"] is known, ["B456"] is appended. *)
Lemma append_chunk_appends_unknown_rows_witness :
  let st := mkState 2024 1 true 1 in
  exists st' w',
    append_chunk get_more_data two_awards st ["A123"] fresh_world = (Some 1, st', w') /\
    content w' = [Row [Some (JStr "B456"); Some (JStr "Study")]] /\
    total_saved st' = 2.
Proof.
  intros st.
  destruct (append_chunk_appends_unknown_rows two_awards st ["A123"] fresh_world)
    as [H _]; [discriminate|].
  exact H.
Defined.

Lemma append_chunk_all_known_is_noop_witness :
  append_chunk get_more_data two_awards (mkState 2024 1 true 2) ["A123"; "B456"] fresh_world =
  (Some 0, mkState 2024 1 true 2, fresh_world).
Proof.
  apply append_chunk_all_known_is_noop; [reflexivity|].
  intros r [<-|[<-|[]]]; reflexivity.
Defined.

(** Two records without an identifier are appended although the same two
    rows are in the output already. *)
Lemma append_chunk_without_id_appends_all_witness :
  let r := [("agency", JStr "NSF"); ("title", JStr "Study")] in
  let row := Row [Some (JStr "NSF"); Some (JStr "Study")] in
  let w := mkWorld (Some [Header ["agency"; "title"]; row; row]) NoFile [] in
  let st := mkState 2024 1 true 2 in
  fst (append_chunk get_more_data (frame_of [r; r]) st [] w) =
    (Some 2, mkState 2024 1 true 4) /\
  content (snd (append_chunk get_more_data (frame_of [r; r]) st [] w)) =
    [Header ["agency"; "title"]; row; row; row; row].
Proof.
  intros r row w st.
  destruct (append_chunk_without_id_appends_all [r; r] st [] w) as (H1 & H2 & _).
  - intros r' [<-|[<-|[]]]; reflexivity.
  - discriminate.
  - rewrite H1. split; [reflexivity|]. cbn [snd]. rewrite H2. reflexivity.
Defined.

(** A fresh update run on [plain_remote] fetches page (2024, 1), appends its
    25 rows and saves a checkpoint that still says offset 1. Stopped there, a
    fresh run fetches page (2024, 1) again and appends the 25 rows a second
    time. The backfill started on a checkpoint at offset 26 begins at page
    (2024, 1), and so does the update started after a run that came to its
    end, whose checkpoint says year 2018. Stopped inside the next save, when
    the checkpoint file is open and empty, the update cannot be started
    again. *)
Lemma restart_after_merge_save_repeats_page :
  let update := main plain_remote header_read_ids 2024 get_more_data in
  update 0%nat fresh_world = Interrupted 2024 1 (mkState 2024 1 false 0) fresh_world /\
  page_step plain_remote get_more_data [] 2024 1 (mkState 2024 1 false 0) fresh_world =
    NextPage 26 (mkState 2024 26 true 25)
             (save_checkpoint (mkState 2024 26 true 25) stopped_after_merge) /\
  checkpoint_file stopped_after_merge = Holds (json_of_state (mkState 2024 1 true 25)) /\
  last (events stopped_after_merge) (Fetch 0 0) = Save (mkState 2024 1 true 25) /\
  requests stopped_after_merge = [(2024, 1)] /\
  List.length (content stopped_after_merge) = 26%nat /\
  requests (world_of (update 1%nat stopped_after_merge)) = [(2024, 1); (2024, 1)] /\
  List.length (content (world_of (update 1%nat stopped_after_merge))) = 51%nat /\
  state_of (update 1%nat stopped_after_merge) (mkState 0 0 false 0) =
    mkState 2024 26 true 50 /\
  main plain_remote header_read_ids 2024 get_data 0 resumable_world =
    Interrupted 2024 1 (mkState 2024 1 false 0) fresh_world /\
  checkpoint_file (world_of (update 10%nat fresh_world)) =
    Holds (json_of_state (mkState 2018 1 true 28)) /\
  state_of (update 0%nat (world_of (update 10%nat fresh_world))) (mkState 0 0 false 0) =
    mkState 2024 1 true 28 /\
  update 1%nat (open_w stopped_after_merge) =
    Crashed JSONDecodeError (open_w stopped_after_merge).
Proof. by_running. Qed.


(** A resumed run appends the three rows of the second page and no header. *)
Lemma resumed_run_writes_no_header :
  let run := main plain_remote header_read_ids 2024 get_more_data 10 resumable_world in
  state_of run (mkState 0 0 false 0) = mkState 2018 1 true 28 /\
  List.length (written (world_of run)) = 3%nat /\
  headers (written (world_of run)) = 0%nat /\
  fst (append_chunk get_data first_page (mkState 2024 26 true 25) [] resumable_world) =
    (None, mkState 2024 26 true 50) /\
  headers (written (snd (append_chunk get_data first_page (mkState 2024 26 true 25) []
                           resumable_world))) = 0%nat.
Proof. by_running. Qed.

(** The pages of 2024 on [plain_remote]: a full one, a short one, and the
    empty one a run would meet at offset 51. *)
Lemma year_exhausted_on_empty_or_short_page_witness :
  let full := mkFetched (JArr (repeat plain_award 25)) 1 [] in
  let short := mkFetched (JArr (repeat plain_award 3)) 1 [] in
  let st0 := mkState 2024 1 false 0 in
  let st1 := mkState 2024 26 true 25 in
  let st2 := mkState 2024 51 true 28 in
  (fetch_page plain_remote 2024 51 = Ok (mkFetched (JArr []) 1 []) /\
   pages plain_remote get_data [] 1 2024 51 st2 fresh_world =
   years plain_remote get_data [] 0 2023 (mkState 2023 1 true 28)
         (save_checkpoint (mkState 2023 1 true 28) (log (Fetch 2024 51) fresh_world))) /\
  (fetch_page plain_remote 2024 26 = Ok short /\
   exists w1,
     pages plain_remote get_data [] 1 2024 26 st1 fresh_world =
     years plain_remote get_data [] 0 2023 (mkState 2023 1 true 28) w1 /\
     checkpoint_file w1 = Holds (json_of_state (mkState 2023 1 true 28)) /\
     requests w1 = [(2024, 26)]) /\
  (fetch_page plain_remote 2024 1 = Ok full /\
   exists w1,
     pages plain_remote get_data [] 1 2024 1 st0 fresh_world =
     pages plain_remote get_data [] 0 2024 26 st1 w1 /\
     checkpoint_file w1 = Holds (json_of_state st1)).
Proof.
  intros full short st0 st1 st2. split; [|split].
  - split; [reflexivity|].
    destruct (year_exhausted_on_empty_or_short_page plain_remote get_data [] 0 2024 51
                st2 fresh_world (mkFetched (JArr []) 1 []) eq_refl) as [H _].
    exact (proj1 (H eq_refl)).
  - split; [reflexivity|].
    destruct (year_exhausted_on_empty_or_short_page plain_remote get_data [] 0 2024 26
                st1 fresh_world short eq_refl) as (_ & H & _).
    destruct (H (frame_of (repeat [("agency", JStr "NSF"); ("title", JStr "Study")] 3))
                eq_refl eq_refl) as [Hshort _].
    destruct Hshort as (Hrun & Hck & Hreq); [vm_compute; reflexivity|].
    eexists. split; [exact Hrun|]. split; [exact Hck|exact Hreq].
  - split; [reflexivity|].
    destruct (year_exhausted_on_empty_or_short_page plain_remote get_data [] 0 2024 1
                st0 fresh_world full eq_refl) as (_ & H & _).
    destruct (H first_page eq_refl eq_refl) as [_ Hfull].
    destruct Hfull as (Hrun & Hck & _); [reflexivity|].
    eexists. split; [exact Hrun|exact Hck].
Defined.

(** The update stopped after its first page is resumed at page (2024, 26). *)
Lemma checkpoint_follows_every_page_witness :
  let update := main plain_remote header_read_ids 2024 get_more_data in
  let st1 := mkState 2024 26 true 25 in
  exists w1,
    update 1%nat fresh_world = Interrupted 2024 26 st1 w1 /\
    checkpoint_file w1 = Holds (json_of_state st1) /\
    update 0%nat w1 = Interrupted 2024 26 st1 w1 /\
    requests (world_of (update 2%nat w1)) = [(2024, 1); (2024, 26); (2023, 1)] /\
    requests (world_of (update 3%nat fresh_world)) = [(2024, 1); (2024, 26); (2023, 1)].
Proof.
  intros update st1. eexists.
  assert (Hrun : update 1%nat fresh_world = Interrupted 2024 26 st1 _)
    by (vm_compute; reflexivity).
  split; [exact Hrun|]. split; [reflexivity|].
  destruct (proj1 (proj2 (checkpoint_follows_every_page plain_remote header_read_ids 2024
                            get_data [] 0 0 st1 fresh_world))
              1%nat 2%nat fresh_world _ _ _ _ Hrun)
    as (Hresume & _ & _ & _).
  split; [exact Hresume|]. split; vm_compute; reflexivity.
Defined.


(** The update resumed at page (2024, 26) of [plain_remote] asks for that
    page and for the first page of 2023. *)
Lemma requests_stay_in_range_witness :
  checkpoint_file resumable_world = Holds (json_of_state (mkState 2024 26 true 25)) /\
  requests (world_of (main plain_remote header_read_ids 2024 get_more_data 2 resumable_world)) =
    [(2024, 26); (2023, 1)] /\
  exists trail,
    requests (world_of (main plain_remote header_read_ids 2024 get_more_data 2 resumable_world)) =
      requests resumable_world ++ trail /\
    NoDup trail /\
    forall y ofs, In (y, ofs) trail ->
      YEAR_START <= y <= YEAR_END get_more_data 2024 /\ 1 <= ofs.
Proof.
  split; [reflexivity|]. split; [vm_compute; reflexivity|].
  destruct (requests_stay_in_range plain_remote header_read_ids 2024 get_more_data 2
              resumable_world) as (_ & trail & Hreq & Hnd & Hin).
  - right. right. now exists (mkState 2024 26 true 25).
  - exists trail. split; [exact Hreq|]. split; [exact Hnd|].
    intros y ofs H. destruct (Hin y ofs H) as (Hy & Ho & _). now split.
Defined.

(** A checkpoint of the year 2022 with a key of its own and a text offset is
    handed on as it is. *)
Lemma load_checkpoint_keeps_year_in_range_witness :
  let d := [ ("year", JInt 2022); ("offset", JStr "51"); ("note", JNull) ] in
  load_checkpoint get_data 2025 (mkWorld None (Holds (JObj d)) []) = Ok (JObj d).
Proof.
  intros d.
  apply (load_checkpoint_keeps_year_in_range get_data 2025 _ d (JInt 2022) 2022);
    [reflexivity|reflexivity|reflexivity|].
  unfold YEAR_START. simpl. lia.
Defined.

(** Without an output file the two identified records are written unfiltered. *)
Lemma unreadable_ids_disable_filter_witness :
  let st := mkState 2024 1 false 0 in
  load_existing_ids header_read_ids fresh_world = [] /\
  fst (append_chunk get_more_data two_awards st
         (load_existing_ids header_read_ids fresh_world) fresh_world) =
    (Some 2, mkState 2024 1 true 2) /\
  content (snd (append_chunk get_more_data two_awards st
                  (load_existing_ids header_read_ids fresh_world) fresh_world)) =
    [ Header ["id"; "title"];
      Row [Some (JStr "A123"); Some (JStr "Study")];
      Row [Some (JStr "B456"); Some (JStr "Study")] ].
Proof.
  intros st.
  destruct (unreadable_ids_disable_filter header_read_ids fresh_world two_awards st
              fresh_world (or_introl eq_refl) eq_refl) as (H1 & H2 & H3).
  split; [exact H1|]. split; [now rewrite H2|exact H3].
Defined.

(** The two identified records, met twice in a run that started without them. *)
Lemma same_batch_is_appended_twice_witness :
  let st := mkState 2024 1 false 0 in
  let st1 := snd (fst (append_chunk get_more_data two_awards st [] fresh_world)) in
  let w1 := snd (append_chunk get_more_data two_awards st [] fresh_world) in
  total_saved (snd (fst (append_chunk get_more_data two_awards st1 [] w1))) = 4 /\
  List.length (content (snd (append_chunk get_more_data two_awards st1 [] w1))) = 5%nat.
Proof.
  intros st st1 w1.
  destruct (same_batch_is_appended_twice two_awards st [] fresh_world) as (_ & Ht & Hc).
  - discriminate.
  - discriminate.
  - intros r _. unfold isin. now destruct (cell_of "id" (columns two_awards) r) as [[]|].
  - split; [exact Ht|]. fold st1 w1 in Hc. rewrite Hc. reflexivity.
Defined.

(** On [id_remote] every page is short: the backfill ends. *)
Lemma run_ends_witness :
  exists fuel, ended (main id_remote header_read_ids 2024 get_data fuel fresh_world).
Proof.
  apply run_ends. intros y ofs. exists 0%nat.
  unfold page_kind, fetch_page. cbn [MAX_RETRIES seq retry].
  unfold attempt_page, id_remote.
  destruct (String.eqb _ _ && _); reflexivity.
Defined.

(** After the completed run on [plain_remote] the next run is at page
    (2024, 1) again, with 28 rows saved. *)
Lemma finished_update_starts_over_witness :
  let update := main plain_remote header_read_ids 2024 get_more_data in
  let w' := world_of (update 10%nat fresh_world) in
  update 10%nat fresh_world = Done (mkState 2018 1 true 28) w' /\
  update 0%nat w' = Interrupted 2024 1 (mkState 2024 1 true 28) w'.
Proof.
  intros update w'.
  assert (Hrun : update 10%nat fresh_world = Done (mkState 2018 1 true 28) w')
    by (vm_compute; reflexivity).
  split; [exact Hrun|].
  refine (proj2 (proj2 (proj2 (finished_update_starts_over plain_remote header_read_ids 2024
                                 10 fresh_world _ w' _ Hrun)))).
  unfold YEAR_START. lia.
Defined.

(** With the remote source down the first page of 2024 closes the year. *)
Lemma failed_page_closes_year_witness :
  let st := mkState 2024 1 false 0 in
  let st' := mkState 2023 1 false 0 in
  page_step dead_remote get_data [] 2024 1 st fresh_world =
    YearDone 2023 st' (save_checkpoint st' (log (Fetch 2024 1) fresh_world)).
Proof.
  intros st st'.
  refine (proj1 (proj2 (failed_page_closes_year dead_remote get_data [] 2024 1 st
                          fresh_world _))).
  intros attempt _. reflexivity.
Defined.

(** On [endless_remote] three pages of fuel leave the run at offset 76 of
    the first year. *)
Lemma full_pages_never_end_witness :
  exists st' w',
    pages endless_remote get_data [] 3 2024 1 (mkState 2024 1 false 0) fresh_world =
    Interrupted 2024 76 st' w'.
Proof.
  apply (full_pages_never_end endless_remote get_data [] 2024 (fun ofs => eq_refl)
           3%nat 1 (mkState 2024 1 false 0) fresh_world).
Defined.
